(** * gitmoo-goog: the downloader package

    A shallow embedding of [downloader/downloader.go] and the properties
    of its naming strategy, item persister and pagination driver.

    The Go code talks to a filesystem, to an HTTP server, to the remote
    listing service, to the logger and to the clock.  All of these are
    made explicit here:
    - the Go library functions that are pure ([time.Parse], [md5],
      [filepath.Join], [mime.ExtensionsByType], [MarshalJSON] ...) are
      fields of the interface [GoLib]; every theorem holds for any
      implementation of it, and [RefLib] is an executable one;
    - the remote side and the faults of the operating system are an
      [Env]; the mutable side (files, counters, open handles and the
      chronicle of calls made) is a [World], threaded through a small
      state monad [M] whose results can also be a Go panic. *)

From Stdlib Require Import ZArith Lia Strings.Ascii Strings.Byte.
From stdpp Require Import base strings gmap list vector pretty.

Local Open Scope Z_scope.

(** ** Go machine integers

    [int] and [int64] are 64-bit two's complement, [uint64] is 64-bit
    unsigned; arithmetic wraps around silently. *)

Module GoInt.

Definition max_int : Z := 2 ^ 63 - 1.
Definition min_int : Z := - 2 ^ 63.

Definition wrap_int (z : Z) : Z := (z + 2 ^ 63) mod 2 ^ 64 - 2 ^ 63.
Definition wrap_uint64 (z : Z) : Z := z mod 2 ^ 64.

Definition add (a b : Z) : Z := wrap_int (a + b).
Definition mul (a b : Z) : Z := wrap_int (a * b).
Definition uadd (a b : Z) : Z := wrap_uint64 (a + b).

Definition in_int (z : Z) : Prop := min_int <= z <= max_int.

End GoInt.

(** ** Outcomes of a Go computation

    A call returns, or the goroutine panics.  [OutOfFuel] is not a Go
    outcome: it is the answer of the model when the bound given to the
    pagination loop was too small to see the loop end. *)

Inductive result (A : Type) : Type :=
  | Ret (a : A)
  | Panic (msg : string)
  | OutOfFuel.
Arguments Ret {A} a.
Arguments Panic {A} msg.
Arguments OutOfFuel {A}.

(** ** Go strings: byte sequences, measured and sliced by byte *)

Module GoString.

Definition len (s : string) : Z := Z.of_nat (String.length s).

Fixpoint drop (n : nat) (s : string) : string :=
  match n, s with
  | O, _ => s
  | S n', String _ s' => drop n' s'
  | S _, EmptyString => EmptyString
  end.

Fixpoint take (n : nat) (s : string) : string :=
  match n, s with
  | O, _ => EmptyString
  | S n', String c s' => String c (take n' s')
  | S _, EmptyString => EmptyString
  end.

Definition out_of_range : string := "slice bounds out of range".

(** [s[lo:hi]] is a run-time panic unless [0 <= lo <= hi <= len(s)]. *)
Definition slice (s : string) (lo hi : Z) : result string :=
  if (0 <=? lo) && (lo <=? hi) && (hi <=? len s)
  then Ret (take (Z.to_nat (hi - lo)) (drop (Z.to_nat lo) s))
  else Panic out_of_range.

(** [s[lo:]] *)
Definition slice_from (s : string) (lo : Z) : result string :=
  slice s lo (len s).

(** [s[:hi]] *)
Definition slice_to (s : string) (hi : Z) : result string :=
  slice s 0 hi.

End GoString.

(** ** Errors

    A Go [error] value is [option error]: [None] is [nil]. *)

Inductive errno : Set :=
  | ENOENT | EACCES | EISDIR | ENOTDIR | ELOOP | ENOSPC | EIO.

Inductive error : Set :=
  | PathError (op path : string) (e : errno)
  | ErrorString (msg : string).

(** A call that returns [(T, error)] with exactly one of them set. *)
Inductive go_res (A : Type) : Type :=
  | Ok (a : A)
  | Err (e : error).
Arguments Ok {A} a.
Arguments Err {A} e.

Definition os_IsNotExist (err : option error) : bool :=
  match err with
  | Some (PathError _ _ ENOENT) => true
  | _ => false
  end.

(** ** The types of the photoslibrary client that the package uses *)

Module photoslibrary.

Record VideoT : Set := { CameraMake : string; Status : string }.

Record MediaMetadataT : Set := {
  CreationTime : string;
  Video : option VideoT;          (* a pointer: [nil] for a still image *)
  Width : Z;
  Height : Z
}.

Record MediaItem : Set := {
  Id : string;
  BaseUrl : string;
  MimeType : string;
  MediaMetadata : MediaMetadataT;
  Description : string;
  Filename : string
}.

Record SearchMediaItemsRequest : Set := {
  AlbumId : string;
  PageSize : Z;
  PageToken : string
}.

Record SearchMediaItemsResponse : Set := {
  MediaItems : list MediaItem;
  NextPageToken : string
}.

(** [req.PageToken = token] *)
Definition set_PageToken (req : SearchMediaItemsRequest) (token : string)
  : SearchMediaItemsRequest :=
  {| AlbumId := AlbumId req; PageSize := PageSize req; PageToken := token |}.

End photoslibrary.

Import photoslibrary.

(** The albums of the same client; the names of the fields are those of
    [photoslibrary.Album] and [photoslibrary.ListAlbumsResponse]. *)
Module albums.




End albums.

(** ** Library functions the package calls

    [time.Time] is seen through the three accessors the code uses. *)

Record Time : Set := { Year : Z; Month : Z; Day : Z }.

Class GoLib : Type := {
  (** [time.Parse(layout, value)] *)
  time_Parse : string -> string -> go_res Time;
  (** [md5.New(); Write(data); Sum(nil)]: always [md5.Size = 16] bytes *)
  md5_Sum : list byte -> vec byte 16;
  (** [filepath.Join(elem...)] *)
  filepath_Join : list string -> string;
  (** [filepath.Dir(path)] *)
  filepath_Dir : string -> string;
  (** [mime.ExtensionsByType(typ)] *)
  mime_ExtensionsByType : string -> list string * option error;
  (** [item.MarshalJSON()] *)
  MarshalJSON : MediaItem -> go_res (list byte)
}.

Definition time_RFC3339 : string := "2006-01-02T15:04:05Z07:00".
Definition time_Second : Z := 1000000000.

Definition strconv_Itoa (i : Z) : string := pretty i.

(** [Month.String()] *)
Definition Month_String (m : Z) : string :=
  match m with
  | 1 => "January" | 2 => "February" | 3 => "March" | 4 => "April"
  | 5 => "May" | 6 => "June" | 7 => "July" | 8 => "August"
  | 9 => "September" | 10 => "October" | 11 => "November" | 12 => "December"
  | _ => "%!Month(" +:+ strconv_Itoa m +:+ ")"
  end.

(** [hex.EncodeToString] *)
Definition hex_digit (n : N) : ascii :=
  match n with
  | 0 => "0" | 1 => "1" | 2 => "2" | 3 => "3" | 4 => "4" | 5 => "5"
  | 6 => "6" | 7 => "7" | 8 => "8" | 9 => "9" | 10 => "a" | 11 => "b"
  | 12 => "c" | 13 => "d" | 14 => "e" | _ => "f"
  end%N%char.

Fixpoint hex_EncodeToString (src : list byte) : string :=
  match src with
  | [] => EmptyString
  | b :: src' =>
      String (hex_digit (Byte.to_N b / 16))
        (String (hex_digit (Byte.to_N b mod 16)) (hex_EncodeToString src'))
  end.

(** ** The package state and its surroundings *)

(** [var Options struct { ... }] *)
Record OptionsT : Set := {
  BackupFolder : string;
  MaxItems : Z;
  PageSize : Z;
  Throttle : Z;
  AlbumID : string
}.

(** [var stats struct { ... }]: three [int]s and a [uint64]. *)
Record StatsT : Set := {
  total : Z;
  errors : Z;
  totalsize : Z;
  downloaded : Z
}.

Inductive node : Set :=
  | File (data : list byte)
  | Dir.

Record FileInfo : Set := { Size : Z; IsDir : bool }.

(** The body of an HTTP response: the bytes that arrive, and how the
    stream ends ([None] is a clean end of file). *)
Record ReadCloser : Set := {
  source : string;
  arriving : list byte;
  ending : option error
}.

Record Response : Set := { ContentLength : Z; Body : ReadCloser }.

(** What lies outside the process and is not changed by it: which
    system calls are refused, what the content server answers for a URL
    and what the listing service answers to a search request. *)
Record Env : Type := {
  stat_fault : string -> option errno;
  mkdir_fault : string -> option errno;
  open_fault : string -> option errno;
  dir_size : Z;
  content_server : string -> go_res (Z * list byte * option error);
  listing_service : SearchMediaItemsRequest -> go_res SearchMediaItemsResponse
}.

Inductive logline : Set :=
  | LogError (err : error)
  | LogCreating (fileName : string)
  | LogAlreadyDownloaded
  | LogSizeChanged
  | LogStatFailed
  | LogNotYetDownloaded
  | LogDownloaded (fileName : string) (n : Z)
  | LogFailed (id : string) (err : error)
  | LogProgress (total downloaded errors totalsize sleepTime : Z)
  | LogSummary (total downloaded errors totalsize : Z)
  | LogAlbum (id title : string).

(** The calls that leave the process, in the order they are made. *)
Inductive event : Set :=
  | EvLog (l : logline)
  | EvSleep (d : Z)
  | EvSearch (req : SearchMediaItemsRequest)
  | EvGet (url : string)
  | EvMkdirAll (path : string)
  | EvWriteFile (name : string)
  | EvCreate (name : string)
  | EvCloseBody (url : string)
  | EvCloseFile (name : string).

Record World : Type := {
  fs : gmap string node;
  stats : StatsT;
  open_bodies : list string;
  open_files : list string;
  history : list event            (* most recent call first *)
}.

(** ** The monad of the embedding: state over [World], with panics *)

Definition M (A : Type) : Type := World -> result A * World.

Definition ret {A : Type} (a : A) : M A := fun w => (Ret a, w).

Definition bind {A B : Type} (c : M A) (k : A -> M B) : M B :=
  fun w =>
    match c w with
    | (Ret a, w') => k a w'
    | (Panic msg, w') => (Panic msg, w')
    | (OutOfFuel, w') => (OutOfFuel, w')
    end.

Definition lift {A : Type} (r : result A) : M A := fun w => (r, w).

Definition gets {A : Type} (f : World -> A) : M A := fun w => (Ret (f w), w).

Definition modify (f : World -> World) : M unit := fun w => (Ret tt, f w).

(** [defer cleanup] placed before [body]: the cleanup runs when the
    function leaves [body], whether by return or by panic. *)
Definition defer {A : Type} (cleanup : M unit) (body : M A) : M A :=
  fun w =>
    let '(r, w1) := body w in
    let '(_, w2) := cleanup w1 in
    (r, w2).

#[global] Instance M_ret : MRet M := @ret.
#[global] Instance M_bind : MBind M := fun A B k c => bind c k.

Definition with_fs (f : gmap string node -> gmap string node) (w : World) : World :=
  {| fs := f (fs w); stats := stats w; open_bodies := open_bodies w;
     open_files := open_files w; history := history w |}.

Definition with_stats (f : StatsT -> StatsT) (w : World) : World :=
  {| fs := fs w; stats := f (stats w); open_bodies := open_bodies w;
     open_files := open_files w; history := history w |}.

Definition with_open_bodies (f : list string -> list string) (w : World) : World :=
  {| fs := fs w; stats := stats w; open_bodies := f (open_bodies w);
     open_files := open_files w; history := history w |}.

Definition with_open_files (f : list string -> list string) (w : World) : World :=
  {| fs := fs w; stats := stats w; open_bodies := open_bodies w;
     open_files := f (open_files w); history := history w |}.

Definition record (e : event) (w : World) : World :=
  {| fs := fs w; stats := stats w; open_bodies := open_bodies w;
     open_files := open_files w; history := e :: history w |}.

(** Removes one occurrence of a handle from a list of open handles. *)
Fixpoint release (h : string) (l : list string) : list string :=
  match l with
  | [] => []
  | x :: l' => if String.eqb x h then l' else x :: release h l'
  end.

Definition emit (e : event) : M unit := modify (record e).

Definition log_Print (l : logline) : M unit := emit (EvLog l).

Definition time_Sleep (d : Z) : M unit := emit (EvSleep d).

(** ** The operating system, the network and the listing service *)

Section Surroundings.

Context (env : Env).

(** What [os.Stat(name)] answers in a world: the file information, or
    an error; never both. *)
Definition stat (w : World) (name : string) : option FileInfo * option error :=
  match stat_fault env name with
  | Some e => (None, Some (PathError "stat" name e))
  | None =>
      match fs w !! name with
      | None => (None, Some (PathError "stat" name ENOENT))
      | Some (File data) =>
          (Some {| Size := Z.of_nat (length data); IsDir := false |}, None)
      | Some Dir =>
          (Some {| Size := dir_size env; IsDir := true |}, None)
      end
  end.

Definition os_Stat (name : string) : M (option FileInfo * option error) :=
  gets (fun w => stat w name).

(** [os.MkdirAll(path, perm)].  The namespace is flat: the directory
    itself is entered, its ancestors are not tracked. *)
Definition os_MkdirAll (path : string) (perm : Z) : M (option error) :=
  emit (EvMkdirAll path);;
  w ← gets id;
  match mkdir_fault env path with
  | Some e => ret (Some (PathError "mkdir" path e))
  | None =>
      match fs w !! path with
      | Some (File _) => ret (Some (PathError "mkdir" path ENOTDIR))
      | _ => modify (with_fs <[path := Dir]>);; ret None
      end
  end.

(** [ioutil.WriteFile(filename, data, perm)] *)
Definition ioutil_WriteFile (filename : string) (data : list byte) (perm : Z)
  : M (option error) :=
  emit (EvWriteFile filename);;
  w ← gets id;
  match open_fault env filename with
  | Some e => ret (Some (PathError "open" filename e))
  | None =>
      match fs w !! filename with
      | Some Dir => ret (Some (PathError "open" filename EISDIR))
      | _ => modify (with_fs <[filename := File data]>);; ret None
      end
  end.

(** [os.Create(name)]: creates the file or truncates it; the handle of
    the open file is its name. *)
Definition os_Create (name : string) : M (go_res string) :=
  emit (EvCreate name);;
  w ← gets id;
  match open_fault env name with
  | Some e => ret (Err (PathError "open" name e))
  | None =>
      match fs w !! name with
      | Some Dir => ret (Err (PathError "open" name EISDIR))
      | _ =>
          modify (with_fs <[name := File []]>);;
          modify (with_open_files (cons name));;
          ret (Ok name)
      end
  end.

(** [f.Close()] *)
Definition File_Close (f : string) : M unit :=
  emit (EvCloseFile f);;
  modify (with_open_files (release f)).

(** [http.Get(url)]: an answer comes with its body open. *)
Definition http_Get (url : string) : M (go_res Response) :=
  emit (EvGet url);;
  match content_server env url with
  | Err e => ret (Err e)
  | Ok (cl, bytes, fin) =>
      modify (with_open_bodies (cons url));;
      ret (Ok {| ContentLength := cl;
                 Body := {| source := url; arriving := bytes; ending := fin |} |})
  end.

(** [body.Close()] *)
Definition Body_Close (b : ReadCloser) : M unit :=
  emit (EvCloseBody (source b));;
  modify (with_open_bodies (release (source b))).

(** [io.Copy(dst, src)]: what arrives is appended to the open file; the
    count of bytes written and the error that ended the stream, if any. *)
Definition io_Copy (dst : string) (src : ReadCloser) : M (Z * option error) :=
  w ← gets id;
  let old := match fs w !! dst with Some (File data) => data | _ => [] end in
  modify (with_fs <[dst := File (old ++ arriving src)]>);;
  ret (Z.of_nat (length (arriving src)), ending src).

(** [svc.MediaItems.Search(req).Do()] *)
Definition MediaItems_Search_Do (req : SearchMediaItemsRequest)
  : M (go_res SearchMediaItemsResponse) :=
  emit (EvSearch req);;
  ret (listing_service env req).

End Surroundings.

(** ** The downloader package *)

Section Downloader.

Context {L : GoLib} (Options : OptionsT) (env : Env).

Definition getFileNameByTime (item : MediaItem) : M (string * option error) :=
  match time_Parse time_RFC3339 (CreationTime (MediaMetadata item)) with
  | Err err =>
      log_Print (LogError err);;
      ret (EmptyString, Some err)
  | Ok t =>
      let year := strconv_Itoa (Year t) in
      let month := Month_String (Month t) in
      suffix ← lift (GoString.slice_from (Id item) (GoString.len (Id item) - 8));
      let name := strconv_Itoa (Day t) +:+ "_" +:+ suffix in
      ret (filepath_Join [BackupFolder Options; year; month; name], None)
  end.

Definition getFileNameByHash (item : MediaItem) : M string :=
  let hash := hex_EncodeToString (vec_to_list (md5_Sum (String.list_byte_of_string (Id item)))) in
  a ← lift (GoString.slice_to hash 4);
  b ← lift (GoString.slice hash 4 8);
  c ← lift (GoString.slice_from hash 8);
  ret (filepath_Join [BackupFolder Options; a; b; c]).

Definition getFileName (item : MediaItem) : M string :=
  '(fileName, err) ← getFileNameByTime item;
  match err with
  | Some _ => getFileNameByHash item
  | None => ret fileName
  end.

Definition createJSON (item : MediaItem) (fileName : string) : M (option error) :=
  '(_, err) ← os_Stat env fileName;
  if os_IsNotExist err then
    log_Print (LogCreating fileName);;
    match MarshalJSON item with
    | Err err => ret (Some err)
    | Ok bytes =>
        err ← os_MkdirAll env (filepath_Dir fileName) 448;
        match err with
        | Some _ => ret err
        | None => ioutil_WriteFile env fileName bytes 420
        end
    end
  else ret None.

(** The URL of the payload: the video variant or the still-image one. *)
Definition payloadUrl (item : MediaItem) : string :=
  match Video (MediaMetadata item) with
  | Some _ => BaseUrl item +:+ "=dv"
  | None => BaseUrl item +:+ "=d"
  end.

(** The part of [createImage] from [os.Create] on. *)
Definition writeImage (fileName : string) (response : Response) : M (option error) :=
  o ← os_Create env fileName;
  match o with
  | Err err => ret (Some err)
  | Ok output =>
      defer (File_Close output)
        (defer (Body_Close (Body response))
           ('(n, err) ← io_Copy output (Body response);
            match err with
            | Some _ => ret err
            | None =>
                log_Print (LogDownloaded fileName n);;
                modify (with_stats (fun s =>
                  {| total := total s; errors := errors s; totalsize := totalsize s;
                     downloaded := GoInt.add (downloaded s) 1 |}));;
                modify (with_stats (fun s =>
                  {| total := total s; errors := errors s;
                     totalsize := GoInt.uadd (totalsize s) n;
                     downloaded := downloaded s |}));;
                ret None
            end))
  end.

Definition createImage (item : MediaItem) (fileName : string) : M (option error) :=
  let url := payloadUrl item in
  r ← http_Get env url;
  match r with
  | Err err => ret (Some err)
  | Ok response =>
      '(fileInfo, err) ← os_Stat env fileName;
      match fileInfo with
      | Some fileInfo =>
          let size := ContentLength response in
          if size =? Size fileInfo then
            log_Print LogAlreadyDownloaded;;
            ret None
          else
            log_Print LogSizeChanged;;
            writeImage fileName response
      | None =>
          if bool_decide (err ≠ None) && negb (os_IsNotExist err) then
            log_Print LogStatFailed;;
            ret err
          else
            log_Print LogNotYetDownloaded;;
            writeImage fileName response
      end
  end.

Definition jsonName (name : string) : string := name +:+ ".json".

Definition imageName (item : MediaItem) (name : string) : string :=
  let '(ext, _) := mime_ExtensionsByType (MimeType item) in
  match ext with
  | e0 :: _ => name +:+ e0
  | [] => name
  end.

Definition downloadItem (item : MediaItem) : M (option error) :=
  name ← getFileName item;
  err ← createJSON item (jsonName name);
  match err with
  | Some _ => ret err
  | None => createImage item (imageName item name)
  end.

Definition incr_total (s : StatsT) : StatsT :=
  {| total := GoInt.add (total s) 1; errors := errors s;
     totalsize := totalsize s; downloaded := downloaded s |}.

Definition incr_errors (s : StatsT) : StatsT :=
  {| total := total s; errors := GoInt.add (errors s) 1;
     totalsize := totalsize s; downloaded := downloaded s |}.

(** [for _, m := range items.MediaItems { ... }]; the value is [hasMore]
    as the loop leaves it. *)
Fixpoint rangeMediaItems (hasMore : bool) (items : list MediaItem) : M bool :=
  match items with
  | [] => ret hasMore
  | m :: rest =>
      modify (with_stats incr_total);;
      s ← gets stats;
      if MaxItems Options <? total s then ret false
      else
        err ← downloadItem m;
        match err with
        | Some e =>
            log_Print (LogFailed (Id m) e);;
            modify (with_stats incr_errors)
        | None => ret tt
        end;;
        rangeMediaItems hasMore rest
  end.

Definition sleepTime : Z := GoInt.mul time_Second (Throttle Options).

(** [for hasMore { ... }].  [Some err] when the function returned [err]
    from inside the loop, [None] when the loop ended. *)
Fixpoint pages (fuel : nat) (hasMore : bool) (req : SearchMediaItemsRequest)
  : M (option error) :=
  if hasMore then
    match fuel with
    | O => lift OutOfFuel
    | S fuel' =>
        s ← gets stats;
        log_Print (LogProgress (total s) (downloaded s) (errors s) (totalsize s) sleepTime);;
        time_Sleep sleepTime;;
        r ← MediaItems_Search_Do env req;
        match r with
        | Err err => ret (Some err)
        | Ok items =>
            hasMore ← rangeMediaItems true (MediaItems items);
            let req := set_PageToken req (NextPageToken items) in
            let hasMore := if String.eqb (PageToken req) EmptyString then false else hasMore in
            pages fuel' hasMore req
        end
    end
  else ret None.

Definition DownloadAll (fuel : nat) : M (option error) :=
  modify (with_stats (fun _ => {| total := 0; errors := 0; totalsize := 0; downloaded := 0 |}));;
  let req := {| AlbumId := AlbumID Options; photoslibrary.PageSize := PageSize Options;
                PageToken := EmptyString |} in
  r ← pages fuel true req;
  match r with
  | Some err => ret (Some err)
  | None =>
      s ← gets stats;
      log_Print (LogSummary (total s) (downloaded s) (errors s) (totalsize s));;
      ret None
  end.

End Downloader.



(** ** An executable library

    Implementations of the [GoLib] functions to run the package on
    concrete inputs: MD5 as in RFC 1321, the lexical path functions of
    [path/filepath] for slash-separated paths, RFC 3339 date-times in the
    shape Go prints them, and the media types of Go's built-in table. *)

Module md5.

Local Open Scope N_scope.

Definition mask32 : N := 0xffffffff.

Definition add32 (a b : N) : N := N.land (a + b) mask32.

Definition not32 (a : N) : N := N.lxor a mask32.

Definition rotl32 (x c : N) : N :=
  N.lor (N.land (N.shiftl x c) mask32) (N.shiftr x (32 - c)).

Definition shifts : list N :=
  [7; 12; 17; 22; 7; 12; 17; 22; 7; 12; 17; 22; 7; 12; 17; 22;
   5; 9; 14; 20; 5; 9; 14; 20; 5; 9; 14; 20; 5; 9; 14; 20;
   4; 11; 16; 23; 4; 11; 16; 23; 4; 11; 16; 23; 4; 11; 16; 23;
   6; 10; 15; 21; 6; 10; 15; 21; 6; 10; 15; 21; 6; 10; 15; 21].

Definition sines : list N :=
  [0xd76aa478; 0xe8c7b756; 0x242070db; 0xc1bdceee;
   0xf57c0faf; 0x4787c62a; 0xa8304613; 0xfd469501;
   0x698098d8; 0x8b44f7af; 0xffff5bb1; 0x895cd7be;
   0x6b901122; 0xfd987193; 0xa679438e; 0x49b40821;
   0xf61e2562; 0xc040b340; 0x265e5a51; 0xe9b6c7aa;
   0xd62f105d; 0x02441453; 0xd8a1e681; 0xe7d3fbc8;
   0x21e1cde6; 0xc33707d6; 0xf4d50d87; 0x455a14ed;
   0xa9e3e905; 0xfcefa3f8; 0x676f02d9; 0x8d2a4c8a;
   0xfffa3942; 0x8771f681; 0x6d9d6122; 0xfde5380c;
   0xa4beea44; 0x4bdecfa9; 0xf6bb4b60; 0xbebfbc70;
   0x289b7ec6; 0xeaa127fa; 0xd4ef3085; 0x04881d05;
   0xd9d4d039; 0xe6db99e5; 0x1fa27cf8; 0xc4ac5665;
   0xf4292244; 0x432aff97; 0xab9423a7; 0xfc93a039;
   0x655b59c3; 0x8f0ccc92; 0xffeff47d; 0x85845dd1;
   0x6fa87e4f; 0xfe2ce6e0; 0xa3014314; 0x4e0811a1;
   0xf7537e82; 0xbd3af235; 0x2ad7d2bb; 0xeb86d391].

(** The message followed by the bit 1, zeros up to 56 modulo 64 bytes,
    and its length in bits as 8 little-endian bytes. *)
Definition le_bytes (count : nat) (x : N) : list N :=
  map (fun i => N.land (N.shiftr x (8 * N.of_nat i)) 0xff) (seq 0 count).

Definition pad (msg : list N) : list N :=
  let n := length msg in
  let zeros := ((64 + 55 - n mod 64) mod 64)%nat in
  msg ++ [0x80] ++ replicate zeros 0 ++ le_bytes 8 (8 * N.of_nat n).

Fixpoint le_word (bs : list N) : N :=
  match bs with
  | [] => 0
  | b :: bs' => b + 256 * le_word bs'
  end.

Fixpoint words (count : nat) (bs : list N) : list N :=
  match count with
  | O => []
  | S count' => le_word (take 4 bs) :: words count' (drop 4 bs)
  end.

Definition state : Type := N * N * N * N.

Definition step (m : list N) (st : state) (i : nat) : state :=
  let '(a, b, c, d) := st in
  let '(f, g) :=
    if (i <? 16)%nat then (N.lor (N.land b c) (N.land (not32 b) d), i)
    else if (i <? 32)%nat then
      (N.lor (N.land d b) (N.land (not32 d) c), ((5 * i + 1) mod 16)%nat)
    else if (i <? 48)%nat then
      (N.lxor (N.lxor b c) d, ((3 * i + 5) mod 16)%nat)
    else (N.lxor c (N.lor b (not32 d)), ((7 * i) mod 16)%nat) in
  let f := add32 (add32 (add32 f a) (nth i sines 0)) (nth g m 0) in
  (d, add32 b (rotl32 f (nth i shifts 0)), b, c).

Definition block (st : state) (m : list N) : state :=
  let '(a0, b0, c0, d0) := st in
  let '(a, b, c, d) := fold_left (step m) (seq 0 64) st in
  (add32 a0 a, add32 b0 b, add32 c0 c, add32 d0 d).

Fixpoint blocks (count : nat) (st : state) (bs : list N) : state :=
  match count with
  | O => st
  | S count' => blocks count' (block st (words 16 (take 64 bs))) (drop 64 bs)
  end.

Definition init : state := (0x67452301, 0xefcdab89, 0x98badcfe, 0x10325476).

Definition to_byte (n : N) : byte :=
  match Byte.of_N (n mod 256) with
  | Some b => b
  | None => x00
  end.

Definition byte_of (x : N) (i : N) : byte := to_byte (N.shiftr x (8 * i)).

Definition Sum (data : list byte) : vec byte 16 :=
  let bs := pad (map Byte.to_N data) in
  let '(a, b, c, d) := blocks (length bs / 64) init bs in
  [# byte_of a 0; byte_of a 1; byte_of a 2; byte_of a 3;
     byte_of b 0; byte_of b 1; byte_of b 2; byte_of b 3;
     byte_of c 0; byte_of c 1; byte_of c 2; byte_of c 3;
     byte_of d 0; byte_of d 1; byte_of d 2; byte_of d 3].

End md5.

Module filepath.

Definition is_slash (c : ascii) : bool := Ascii.eqb c "/".

(** The elements between the separators, empty ones included. *)
Fixpoint elements (cs : list ascii) (cur : list ascii) : list string :=
  match cs with
  | [] => [String.string_of_list_ascii (reverse cur)]
  | c :: cs' =>
      if is_slash c then String.string_of_list_ascii (reverse cur) :: elements cs' []
      else elements cs' (c :: cur)
  end.

(** One element against the elements kept so far (innermost first). *)
Definition push (rooted : bool) (kept : list string) (e : string) : list string :=
  if String.eqb e EmptyString || String.eqb e "." then kept
  else if String.eqb e ".." then
    match kept with
    | top :: rest => if String.eqb top ".." then e :: kept else rest
    | [] => if rooted then [] else [e]
    end
  else e :: kept.

Definition rooted (cs : list ascii) : bool :=
  match cs with
  | c :: _ => is_slash c
  | [] => false
  end.

(** [filepath.Clean], lexically, for slash-separated paths. *)
Definition Clean (path : string) : string :=
  let cs := String.list_ascii_of_string path in
  let kept := fold_left (push (rooted cs)) (elements cs []) [] in
  let body := String.concat "/" (reverse kept) in
  if rooted cs then "/" +:+ body
  else if String.eqb body EmptyString then "." else body.

Definition Join (elem : list string) : string :=
  match filter (fun e => e ≠ EmptyString) elem with
  | [] => EmptyString
  | es => Clean (String.concat "/" es)
  end.

Fixpoint drop_last_element (rev_cs : list ascii) : list ascii :=
  match rev_cs with
  | [] => []
  | c :: rest => if is_slash c then rev_cs else drop_last_element rest
  end.

Definition Dir (path : string) : string :=
  Clean (String.string_of_list_ascii
           (reverse (drop_last_element (reverse (String.list_ascii_of_string path))))).

End filepath.

Module rfc3339.

Definition digit (c : ascii) : option Z :=
  let n := Z.of_N (N_of_ascii c) in
  if (48 <=? n) && (n <=? 57) then Some (n - 48) else None.

Definition two (a b : ascii) : option Z :=
  x ← digit a; y ← digit b; Some (10 * x + y).

Definition four (a b c d : ascii) : option Z :=
  x ← two a b; y ← two c d; Some (100 * x + y).

Definition leap (y : Z) : bool :=
  (y mod 4 =? 0) && (negb (y mod 100 =? 0) || (y mod 400 =? 0)).

Definition days_in (m y : Z) : Z :=
  match m with
  | 2 => if leap y then 29 else 28
  | 4 | 6 | 9 | 11 => 30
  | _ => 31
  end.

(** [Z], or a sign and [hh:mm]. *)
Definition zone (cs : list ascii) : bool :=
  match cs with
  | [z] => Ascii.eqb z "Z"
  | [s; h1; h2; colon; m1; m2] =>
      (Ascii.eqb s "+" || Ascii.eqb s "-") && Ascii.eqb colon ":" &&
      match two h1 h2, two m1 m2 with
      | Some h, Some m => (h <? 24) && (m <? 60)
      | _, _ => false
      end
  | _ => false
  end.

Fixpoint skip_digits (cs : list ascii) : list ascii :=
  match cs with
  | c :: cs' =>
      match digit c with
      | Some _ => skip_digits cs'
      | None => cs
      end
  | [] => []
  end.

(** An optional fraction of a second, then the zone. *)
Definition tail_ok (cs : list ascii) : bool :=
  match cs with
  | dot :: d :: cs' =>
      if Ascii.eqb dot "." then
        match digit d with
        | Some _ => zone (skip_digits cs')
        | None => false
        end
      else zone cs
  | _ => zone cs
  end.

Definition cannot_parse (value : string) : error :=
  ErrorString ("parsing time " +:+ value +:+ ": cannot parse as " +:+ time_RFC3339).

Definition parse (value : string) : option Time :=
  match String.list_ascii_of_string value with
  | y1 :: y2 :: y3 :: y4 :: s1 :: m1 :: m2 :: s2 :: d1 :: d2 :: t ::
    h1 :: h2 :: c1 :: i1 :: i2 :: c2 :: e1 :: e2 :: rest =>
      y ← four y1 y2 y3 y4;
      m ← two m1 m2;
      d ← two d1 d2;
      h ← two h1 h2;
      i ← two i1 i2;
      e ← two e1 e2;
      if Ascii.eqb s1 "-" && Ascii.eqb s2 "-" && Ascii.eqb t "T" &&
         Ascii.eqb c1 ":" && Ascii.eqb c2 ":" &&
         (1 <=? m) && (m <=? 12) && (1 <=? d) && (d <=? days_in m y) &&
         (h <? 24) && (i <? 60) && (e <? 60) && tail_ok rest
      then Some {| Year := y; Month := m; Day := d |}
      else None
  | _ => None
  end.

(** [time.Parse] for the one layout the package uses. *)
Definition Parse (layout value : string) : go_res Time :=
  if String.eqb layout time_RFC3339 then
    match parse value with
    | Some t => Ok t
    | None => Err (cannot_parse value)
    end
  else Err (cannot_parse value).

End rfc3339.

Module mime.

(** The extensions of Go's built-in table, sorted, for the media types
    that have one there. *)
Definition ExtensionsByType (typ : string) : list string * option error :=
  if String.eqb typ EmptyString then ([], Some (ErrorString "mime: no media type"))
  else if String.eqb typ "image/jpeg" then ([".jpeg"; ".jpg"], None)
  else if String.eqb typ "image/png" then ([".png"], None)
  else if String.eqb typ "image/gif" then ([".gif"], None)
  else if String.eqb typ "image/webp" then ([".webp"], None)
  else if String.eqb typ "image/avif" then ([".avif"], None)
  else if String.eqb typ "application/json" then ([".json"], None)
  else if String.eqb typ "application/pdf" then ([".pdf"], None)
  else ([], None).

End mime.

Module json.

Definition quote : string := String (ascii_of_nat 34) EmptyString.

Definition field (name value : string) : string :=
  quote +:+ name +:+ quote +:+ ":" +:+ quote +:+ value +:+ quote.

(** The identifying fields of an item as a JSON object (values are
    written as they are, without escapes). *)
Definition Marshal (item : MediaItem) : go_res (list byte) :=
  Ok (String.list_byte_of_string
        ("{" +:+ field "id" (Id item) +:+ "," +:+
         field "baseUrl" (BaseUrl item) +:+ "," +:+
         field "mimeType" (MimeType item) +:+ "," +:+
         field "creationTime" (CreationTime (MediaMetadata item)) +:+ "," +:+
         field "filename" (Filename item) +:+ "}")).

End json.

Definition RefLib : GoLib := {|
  time_Parse := rfc3339.Parse;
  md5_Sum := md5.Sum;
  filepath_Join := filepath.Join;
  filepath_Dir := filepath.Dir;
  mime_ExtensionsByType := mime.ExtensionsByType;
  MarshalJSON := json.Marshal
|}.

(** ** Reading a history *)

Definition searches (h : list event) : list SearchMediaItemsRequest :=
  omap (fun e => match e with EvSearch req => Some req | _ => None end) h.

Definition fetches (h : list event) : list string :=
  omap (fun e => match e with EvGet url => Some url | _ => None end) h.

Definition creations (h : list event) : list string :=
  omap (fun e => match e with EvCreate name => Some name | _ => None end) h.

Definition writes (h : list event) : list string :=
  omap (fun e => match e with EvWriteFile name => Some name | _ => None end) h.

Definition closed_bodies (h : list event) : list string :=
  omap (fun e => match e with EvCloseBody url => Some url | _ => None end) h.

Definition is_summary (e : event) : bool :=
  match e with
  | EvLog (LogSummary _ _ _ _) => true
  | _ => false
  end.

(** The calls only the pagination driver makes. *)
Definition driver_event (e : event) : bool :=
  match e with
  | EvSleep _ | EvSearch _ => true
  | EvLog (LogProgress _ _ _ _ _) | EvLog (LogSummary _ _ _ _) => true
  | _ => false
  end.

(** The pace of a run, as an automaton over its calls in the order they
    are made: a progress line, then the throttle sleep, then the page
    fetch; calls of the item persister in between pages; one summary
    line, after which nothing. *)
Inductive pace : Set := Idle | Announced | Slept | Summed.

Definition pace_step (throttle : Z) (p : pace) (e : event) : option pace :=
  match p, e with
  | Idle, EvLog (LogProgress _ _ _ _ d) => if d =? throttle then Some Announced else None
  | Announced, EvSleep d => if d =? throttle then Some Slept else None
  | Slept, EvSearch _ => Some Idle
  | Idle, EvLog (LogSummary _ _ _ _) => Some Summed
  | Idle, _ => if driver_event e then None else Some Idle
  | _, _ => None
  end.

Fixpoint pace_run (throttle : Z) (p : pace) (calls : list event) : option pace :=
  match calls with
  | [] => Some p
  | e :: calls' =>
      match pace_step throttle p e with
      | Some p' => pace_run throttle p' calls'
      | None => None
      end
  end.

(** The pace a finished call of [DownloadAll] must have reached. *)
Definition pace_at_end (r : result (option error)) : pace :=
  match r with
  | Ret None => Summed
  | _ => Idle
  end.

Section Accounting.

Context {L : GoLib} (Options : OptionsT) (env : Env).

(** The last eight bytes of an identifier that has as many. *)
Definition last8 (id : string) : string :=
  GoString.drop (String.length id - 8) id.

(** [<root>/<year>/<month-name>/<day>_<last-8-chars-of-id>] *)
Definition timePath (t : Time) (id : string) : string :=
  filepath_Join [BackupFolder Options; strconv_Itoa (Year t);
                 Month_String (Month t);
                 strconv_Itoa (Day t) +:+ "_" +:+ last8 id].

(** [<root>/<hex 0..4>/<hex 4..8>/<hex 8..32>] of the MD5 of the identifier. *)
Definition hashPath (id : string) : string :=
  let hash := hex_EncodeToString
                (vec_to_list (md5_Sum (String.list_byte_of_string id))) in
  filepath_Join [BackupFolder Options; GoString.take 4 hash;
                 GoString.take 4 (GoString.drop 4 hash); GoString.drop 8 hash].

(** Persisting an item and accounting for a failure, as the body of the
    range loop does after the cap check. *)
Definition persistCounted (m : MediaItem) : M unit :=
  err ← downloadItem Options env m;
  match err with
  | Some e =>
      log_Print (LogFailed (Id m) e);;
      modify (with_stats incr_errors)
  | None => ret tt
  end.

(** Every item of a list examined and persisted, with no cap. *)
Fixpoint persistEach (items : list MediaItem) : M unit :=
  match items with
  | [] => ret tt
  | m :: rest =>
      modify (with_stats incr_total);;
      persistCounted m;;
      persistEach rest
  end.

(** The world as a page fetch finds it: the progress line, the sleep
    and the search request are on record. *)
Definition page_start (req : SearchMediaItemsRequest) (w : World) : World :=
  record (EvSearch req)
    (record (EvSleep (sleepTime Options))
       (record (EvLog (LogProgress (total (stats w)) (downloaded (stats w))
                         (errors (stats w)) (totalsize (stats w))
                         (sleepTime Options))) w)).

Definition reset_stats (w : World) : World :=
  with_stats (fun _ => {| total := 0; errors := 0; totalsize := 0; downloaded := 0 |}) w.

Definition first_request : SearchMediaItemsRequest :=
  {| AlbumId := AlbumID Options; photoslibrary.PageSize := PageSize Options;
     PageToken := EmptyString |}.

Definition summary_line (w : World) : World :=
  record (EvLog (LogSummary (total (stats w)) (downloaded (stats w))
                   (errors (stats w)) (totalsize (stats w)))) w.

End Accounting.

(** ** Frames: what a computation leaves as it was *)

(** [R] relates the world before any run of [c] to the world after it,
    however the run ends. *)
Definition preserves (R : relation World) {A : Type} (c : M A) : Prop :=
  forall w, R w (c w).2.

(** The observation [f] of the world is the same after as before. *)
Definition keeps {X : Type} (f : World -> X) : relation World :=
  fun w w' => f w' = f w.

(** The history only grows, and by no call of the pagination driver. *)
Definition quiet : relation World :=
  fun w w' => exists new, history w' = new ++ history w /\
                          forallb (fun e => negb (driver_event e)) new = true.

(** From pace [p] before to pace [p'] after, by the calls made in between. *)
Definition paced (throttle : Z) (p p' : pace) : relation World :=
  fun w w' => exists calls, history w' = reverse calls ++ history w /\
                            pace_run throttle p calls = Some p'.

(** The world once [http.Get(url)] has been answered: the request is on
    record and the body of the response is open. *)
Definition answered (url : string) (w : World) : World :=
  with_open_bodies (cons url) (record (EvGet url) w).

(** ** Outcomes and invariants

    The two outcomes of [createImage] once [http.Get] has answered: the
    payload file has been created and written, or everything on disk is
    as it was. *)

Definition written (url fileName : string) (bytes : list byte)
    (fin : option error) (w : World) (r : result (option error) * World) : Prop :=
  r.1 = Ret fin /\
  fs r.2 = <[fileName := File bytes]> (fs w) /\
  creations (history r.2) = fileName :: creations (history w) /\
  open_bodies r.2 = open_bodies w /\
  open_files r.2 = open_files w /\
  closed_bodies (history r.2) = url :: closed_bodies (history w) /\
  stats r.2
  = match fin with
    | Some _ => stats w
    | None =>
        {| total := total (stats w); errors := errors (stats w);
           totalsize := GoInt.uadd (totalsize (stats w)) (Z.of_nat (length bytes));
           downloaded := GoInt.add (downloaded (stats w)) 1 |}
    end.

Definition left_alone (url : string) (w : World)
    (r : result (option error) * World) : Prop :=
  (exists err, r.1 = Ret err) /\
  fs r.2 = fs w /\
  stats r.2 = stats w /\
  open_bodies r.2 = url :: open_bodies w /\
  open_files r.2 = open_files w /\
  closed_bodies (history r.2) = closed_bodies (history w).

(** The counters while the loop is under the cap, and as any run leaves
    them. *)
Definition under_cap (Options : OptionsT) (s : StatsT) : Prop :=
  0 <= downloaded s /\ 0 <= errors s /\
  downloaded s + errors s <= total s /\ total s <= MaxItems Options.

Definition accounted (Options : OptionsT) (s : StatsT) : Prop :=
  0 <= downloaded s /\ 0 <= errors s /\
  downloaded s + errors s <= total s /\
  total s <= MaxItems Options + 1 /\
  downloaded s + errors s <= MaxItems Options.

(** Each request of [later] repeats the one before it, with the token
    that one was answered with. *)
Fixpoint follows (env : Env) (req : SearchMediaItemsRequest)
    (later : list SearchMediaItemsRequest) : Prop :=
  match later with
  | [] => True
  | next :: later' =>
      match listing_service env req with
      | Ok items =>
          NextPageToken items <> EmptyString /\
          next = set_PageToken req (NextPageToken items) /\
          follows env next later'
      | Err _ => False
      end
  end.


(** ** A small library of photos, for running the package *)

Module Scenario.

Definition opts : OptionsT :=
  {| BackupFolder := "backup"; MaxItems := 2; PageSize := 50;
     Throttle := 5; AlbumID := EmptyString |}.

Definition roomy : OptionsT :=
  {| BackupFolder := "backup"; MaxItems := 100; PageSize := 50;
     Throttle := 5; AlbumID := EmptyString |}.

Definition photo (id url created mimeType : string) : MediaItem :=
  {| Id := id; BaseUrl := url; MimeType := mimeType;
     MediaMetadata := {| CreationTime := created; Video := None;
                         Width := 640; Height := 480 |};
     Description := EmptyString; Filename := id |}.

Definition beach : MediaItem :=
  photo "AGj1epU-beach001" "https://lh3.example/beach" "2019-03-02T10:15:30Z"
        "image/png".

Definition hills : MediaItem :=
  photo "AGj1epU-hills002" "https://lh3.example/hills" "2019-03-05T08:00:00Z"
        "image/png".

Definition creek : MediaItem :=
  photo "AGj1epU-creek003" "https://lh3.example/creek"
        "2019-04-11T17:45:00+02:00" "image/png".

(** An item whose identifier has three bytes. *)
Definition short : MediaItem :=
  photo "abc" "https://lh3.example/short" "2019-03-02T10:15:30Z" "image/png".

(** An item without a creation time. *)
Definition undated : MediaItem :=
  photo "AGj1epU-undated4" "https://lh3.example/undated" EmptyString "image/png".

Definition beach_bytes : list byte := [x01; x02; x03].
Definition hills_bytes : list byte := [x04; x05].

(** The content server has the beach and the hills; the creek is out of
    its reach. *)
Definition server (url : string) : go_res (Z * list byte * option error) :=
  if String.eqb url "https://lh3.example/beach=d" then Ok (3, beach_bytes, None)
  else if String.eqb url "https://lh3.example/hills=d" then Ok (2, hills_bytes, None)
  else Err (ErrorString "Get: connection refused").

Definition no_fault (_ : string) : option errno := None.

Definition fault_at (path : string) (e : errno) (name : string) : option errno :=
  if String.eqb name path then Some e else None.

Definition backend_error : error :=
  ErrorString "googleapi: Error 503: backend error".

(** Three items on the first page and a token for more; the second page
    cannot be listed. *)
Definition listing (req : SearchMediaItemsRequest)
  : go_res SearchMediaItemsResponse :=
  if String.eqb (PageToken req) EmptyString
  then Ok {| MediaItems := [beach; hills; creek]; NextPageToken := "next" |}
  else Err backend_error.

(** One item, and no token. *)
Definition single (req : SearchMediaItemsRequest)
  : go_res SearchMediaItemsResponse :=
  Ok {| MediaItems := [beach]; NextPageToken := EmptyString |}.

Definition down (req : SearchMediaItemsRequest)
  : go_res SearchMediaItemsResponse :=
  Err backend_error.

Definition env_with (listing_service : SearchMediaItemsRequest ->
                                       go_res SearchMediaItemsResponse) : Env :=
  {| stat_fault := no_fault; mkdir_fault := no_fault; open_fault := no_fault;
     dir_size := 4096; content_server := server;
     listing_service := listing_service |}.

Definition env : Env := env_with listing.

Definition march_2 : Time := {| Year := 2019; Month := 3; Day := 2 |}.

Definition beach_path : string := "backup/2019/March/2_beach001".
Definition beach_png : string := "backup/2019/March/2_beach001.png".
Definition beach_json : string := "backup/2019/March/2_beach001.json".

(** The payload of the beach may not be opened for writing. *)
Definition env_read_only : Env :=
  {| stat_fault := no_fault; mkdir_fault := no_fault;
     open_fault := fault_at beach_png EACCES;
     dir_size := 4096; content_server := server; listing_service := listing |}.

(** The sidecar of the beach is a link that loops. *)
Definition env_looping : Env :=
  {| stat_fault := fault_at beach_json ELOOP; mkdir_fault := no_fault;
     open_fault := no_fault;
     dir_size := 4096; content_server := server; listing_service := listing |}.



Definition empty : World :=
  {| fs := ∅;
     stats := {| total := 0; errors := 0; totalsize := 0; downloaded := 0 |};
     open_bodies := []; open_files := []; history := [] |}.

(** The beach is on disk in full, with its sidecar. *)
Definition beach_on_disk : World :=
  with_fs (fun _ => <[beach_png := File beach_bytes]>
                      (<[beach_json := File [x7b; x7d]]> ∅)) empty.

(** The beach is on disk one byte short. *)
Definition beach_cut_short : World :=
  with_fs (fun _ => <[beach_png := File [x01; x02]]>
                      (<[beach_json := File [x7b; x7d]]> ∅)) empty.

(** A video. *)
Definition film : MediaItem :=
  {| Id := "AGj1epU-film0006"; BaseUrl := "https://lh3.example/film";
     MimeType := "video/mp4";
     MediaMetadata := {| CreationTime := "2019-05-01T12:00:00Z";
                         Video := Some {| CameraMake := "Acme"; Status := "READY" |};
                         Width := 1920; Height := 1080 |};
     Description := EmptyString; Filename := "film.mp4" |}.

(** An item whose media type is that of a JSON document. *)
Definition ledger : MediaItem :=
  photo "AGj1epU-ledger05" "https://lh3.example/ledger" "2019-03-02T10:15:30Z"
        "application/json".

Definition ledger_bytes : list byte := [x10; x11; x12; x13].

Definition ledger_path : string := "backup/2019/March/2_ledger05".
Definition ledger_json : string := "backup/2019/March/2_ledger05.json".

(** A content server that has the ledger too. *)
Definition archive (url : string) : go_res (Z * list byte * option error) :=
  if String.eqb url "https://lh3.example/ledger=d" then Ok (4, ledger_bytes, None)
  else server url.

Definition env_archive : Env :=
  {| stat_fault := no_fault; mkdir_fault := no_fault; open_fault := no_fault;
     dir_size := 4096; content_server := archive; listing_service := listing |}.

(** The sidecar of the ledger is on disk. *)
Definition ledger_on_disk : World :=
  with_fs (fun _ => <[ledger_json := File [x7b; x7d]]> ∅) empty.

Definition cut_off : error := ErrorString "unexpected EOF".

(** A content server that loses the connection after the first byte of
    the beach. *)
Definition flaky (url : string) : go_res (Z * list byte * option error) :=
  if String.eqb url "https://lh3.example/beach=d" then Ok (3, [x01], Some cut_off)
  else server url.

Definition env_flaky : Env :=
  {| stat_fault := no_fault; mkdir_fault := no_fault; open_fault := no_fault;
     dir_size := 4096; content_server := flaky; listing_service := listing |}.

(** The payload path of the beach cannot be looked at. *)
Definition env_hidden : Env :=
  {| stat_fault := fault_at beach_png EACCES; mkdir_fault := no_fault;
     open_fault := no_fault;
     dir_size := 4096; content_server := server; listing_service := listing |}.

(** Two pages: the beach and the hills, then the creek. *)
Definition two_pages (req : SearchMediaItemsRequest)
  : go_res SearchMediaItemsResponse :=
  if String.eqb (PageToken req) EmptyString
  then Ok {| MediaItems := [beach; hills]; NextPageToken := "p2" |}
  else if String.eqb (PageToken req) "p2"
  then Ok {| MediaItems := [creek]; NextPageToken := EmptyString |}
  else Err backend_error.

(** A listing that never comes to an end. *)
Definition endless (req : SearchMediaItemsRequest)
  : go_res SearchMediaItemsResponse :=
  Ok {| MediaItems := []; NextPageToken := "more" |}.

(** One page with the short identifier in the middle. *)
Definition with_short (req : SearchMediaItemsRequest)
  : go_res SearchMediaItemsResponse :=
  Ok {| MediaItems := [beach; short; hills]; NextPageToken := EmptyString |}.

(** A cap of zero. *)
Definition closed : OptionsT :=
  {| BackupFolder := "backup"; MaxItems := 0; PageSize := 50;
     Throttle := 5; AlbumID := EmptyString |}.

Definition creek_path : string := "backup/2019/April/11_creek003".


End Scenario.

(** * Properties *)

(** ** Machine integers and strings *)

Lemma wrap_int_id z : GoInt.in_int z -> GoInt.wrap_int z = z.
Proof.
  unfold GoInt.in_int, GoInt.wrap_int, GoInt.min_int, GoInt.max_int.
  intros Hz. rewrite Z.mod_small; lia.
Qed.

Lemma int_incr z : GoInt.min_int <= z < GoInt.max_int -> GoInt.add z 1 = z + 1.
Proof.
  intros Hz. unfold GoInt.add. apply wrap_int_id.
  unfold GoInt.in_int. lia.
Qed.

Lemma uint64_add a n :
  0 <= a -> 0 <= n -> a + n < 2 ^ 64 -> GoInt.uadd a n = a + n.
Proof.
  intros Ha Hn Hsum. unfold GoInt.uadd, GoInt.wrap_uint64.
  apply Z.mod_small. lia.
Qed.

Lemma length_drop_string n s :
  String.length (GoString.drop n s) = (String.length s - n)%nat.
Proof.
  revert s. induction n as [|n IH]; intros [|c s]; simpl; auto with lia.
Qed.

Lemma length_take_string n s :
  String.length (GoString.take n s) = Nat.min n (String.length s).
Proof.
  revert s. induction n as [|n IH]; intros [|c s]; simpl; auto with lia.
Qed.

Lemma take_string_all n s : (String.length s <= n)%nat -> GoString.take n s = s.
Proof.
  revert s. induction n as [|n IH]; intros [|c s]; simpl; intros Hn;
    try reflexivity; try lia.
  f_equal. apply IH. lia.
Qed.

Lemma slice_in_range s lo hi :
  0 <= lo -> lo <= hi -> hi <= GoString.len s ->
  GoString.slice s lo hi
  = Ret (GoString.take (Z.to_nat (hi - lo)) (GoString.drop (Z.to_nat lo) s)).
Proof.
  intros H0 H1 H2. unfold GoString.slice.
  rewrite (proj2 (Z.leb_le 0 lo) H0), (proj2 (Z.leb_le lo hi) H1),
          (proj2 (Z.leb_le hi (GoString.len s)) H2). reflexivity.
Qed.

Lemma slice_from_in_range s lo :
  0 <= lo <= GoString.len s ->
  GoString.slice_from s lo = Ret (GoString.drop (Z.to_nat lo) s).
Proof.
  intros [H0 H1]. unfold GoString.slice_from.
  rewrite slice_in_range by lia. f_equal.
  apply take_string_all. rewrite length_drop_string.
  unfold GoString.len in *. lia.
Qed.

Lemma slice_from_negative s lo :
  lo < 0 -> GoString.slice_from s lo = Panic GoString.out_of_range.
Proof.
  intros Hlo. unfold GoString.slice_from, GoString.slice.
  rewrite (proj2 (Z.leb_gt 0 lo) Hlo). reflexivity.
Qed.

Lemma length_hex src :
  String.length (hex_EncodeToString src) = (2 * length src)%nat.
Proof. induction src as [|b src IH]; simpl; [reflexivity | rewrite IH; lia]. Qed.

Lemma len_md5_hex `{GoLib} data :
  GoString.len (hex_EncodeToString (vec_to_list (md5_Sum data))) = 32.
Proof.
  unfold GoString.len. rewrite length_hex, length_vec_to_list. reflexivity.
Qed.

(** ** Running the monad *)

Lemma run_bind {A B : Type} (c : M A) (k : A -> M B) (w : World) :
  (c ≫= k) w
  = match c w with
    | (Ret a, w') => k a w'
    | (Panic msg, w') => (Panic msg, w')
    | (OutOfFuel, w') => (OutOfFuel, w')
    end.
Proof. reflexivity. Qed.

Lemma run_bind_ret {A B : Type} (c : M A) (k : A -> M B) (w w' : World) (a : A) :
  c w = (Ret a, w') -> (c ≫= k) w = k a w'.
Proof. intros Hc. rewrite run_bind, Hc. reflexivity. Qed.

Lemma run_bind_panic {A B : Type} (c : M A) (k : A -> M B) (w w' : World) msg :
  c w = (Panic msg, w') -> (c ≫= k) w = (Panic msg, w').
Proof. intros Hc. rewrite run_bind, Hc. reflexivity. Qed.

Ltac run :=
  repeat (rewrite run_bind; simpl);
  unfold log_Print, time_Sleep, emit, modify, gets, ret, lift; simpl.

(** ** Naming strategy *)

Section Naming.

Context {L : GoLib} (Options : OptionsT).

Lemma length_last8 (id : string) :
  8 <= GoString.len id -> String.length (last8 id) = 8%nat.
Proof.
  unfold GoString.len, last8. intros Hid. rewrite length_drop_string. lia.
Qed.

Lemma getFileNameByTime_ok (item : MediaItem) (t : Time) (w : World) :
  time_Parse time_RFC3339 (CreationTime (MediaMetadata item)) = Ok t ->
  8 <= GoString.len (Id item) ->
  getFileNameByTime Options item w = (Ret (timePath Options t (Id item), None), w).
Proof.
  intros Ht Hid. unfold getFileNameByTime. rewrite Ht.
  rewrite run_bind. unfold lift.
  rewrite slice_from_in_range by lia.
  unfold timePath, last8, GoString.len, ret.
  replace (Z.to_nat (Z.of_nat (String.length (Id item)) - 8))
    with (String.length (Id item) - 8)%nat by lia.
  reflexivity.
Qed.

Lemma getFileNameByTime_panic (item : MediaItem) (t : Time) (w : World) :
  time_Parse time_RFC3339 (CreationTime (MediaMetadata item)) = Ok t ->
  GoString.len (Id item) < 8 ->
  getFileNameByTime Options item w = (Panic GoString.out_of_range, w).
Proof.
  intros Ht Hid. unfold getFileNameByTime. rewrite Ht.
  rewrite run_bind. unfold lift.
  rewrite slice_from_negative by lia. reflexivity.
Qed.

Lemma getFileNameByTime_unparsable (item : MediaItem) (err : error) (w : World) :
  time_Parse time_RFC3339 (CreationTime (MediaMetadata item)) = Err err ->
  getFileNameByTime Options item w
  = (Ret (EmptyString, Some err), record (EvLog (LogError err)) w).
Proof. intros Ht. unfold getFileNameByTime. rewrite Ht. reflexivity. Qed.

Lemma getFileNameByHash_total (item : MediaItem) (w : World) :
  getFileNameByHash Options item w = (Ret (hashPath Options (Id item)), w).
Proof.
  unfold getFileNameByHash, hashPath.
  set (hash := hex_EncodeToString _).
  assert (Hlen : GoString.len hash = 32) by apply len_md5_hex.
  rewrite run_bind. unfold lift, GoString.slice_to.
  rewrite slice_in_range by lia.
  rewrite run_bind. rewrite slice_in_range by lia.
  rewrite run_bind. rewrite slice_from_in_range by lia.
  reflexivity.
Qed.

(** C9: with a creation time that parses, the name is built from the
    last 8 bytes of the identifier, [item.Id[len(item.Id)-8:]]; that
    slice exists exactly when the identifier has at least 8 bytes, and
    on a shorter identifier the computation panics with the index out of
    range instead of returning. *)
Theorem getFileNameByTime_needs_8_bytes (item : MediaItem) (t : Time) (w : World) :
  time_Parse time_RFC3339 (CreationTime (MediaMetadata item)) = Ok t ->
  (8 <= GoString.len (Id item) ->
     GoString.slice_from (Id item) (GoString.len (Id item) - 8) = Ret (last8 (Id item)) /\
     String.length (last8 (Id item)) = 8%nat /\
     getFileNameByTime Options item w
     = (Ret (filepath_Join [BackupFolder Options; strconv_Itoa (Year t);
                            Month_String (Month t);
                            strconv_Itoa (Day t) +:+ "_" +:+ last8 (Id item)], None), w)) /\
  (GoString.len (Id item) < 8 ->
     GoString.slice_from (Id item) (GoString.len (Id item) - 8)
     = Panic GoString.out_of_range /\
     getFileNameByTime Options item w = (Panic GoString.out_of_range, w) /\
     getFileName Options item w = (Panic GoString.out_of_range, w)).
Proof.
  intros Ht. split; intros Hid.
  - split; [|split].
    + rewrite slice_from_in_range by lia. unfold last8, GoString.len.
      do 2 f_equal. lia.
    + by apply length_last8.
    + by apply getFileNameByTime_ok.
  - split; [|split].
    + apply slice_from_negative. lia.
    + by apply (getFileNameByTime_panic item t).
    + unfold getFileName. eapply run_bind_panic.
      by apply (getFileNameByTime_panic item t).
Qed.

(** C6, as amended: for an item whose creation time parses and whose
    identifier has at least 8 bytes, the path is
    [<root>/<year>/<month-name>/<day>_<last-8-chars-of-id>] and nothing
    else is done; for an item whose creation time does not parse, the
    path is the hash path of the identifier.  Either way the outcome is
    a function of the root, the identifier and the creation time: two
    items that agree on identifier and creation time get the same
    outcome whatever their other fields and whatever the world, and two
    items without a parseable creation time need only agree on the
    identifier. *)
Theorem getFileName_deterministic (item : MediaItem) (w : World) :
  (forall t,
     time_Parse time_RFC3339 (CreationTime (MediaMetadata item)) = Ok t ->
     8 <= GoString.len (Id item) ->
     getFileName Options item w = (Ret (timePath Options t (Id item)), w)) /\
  (forall err,
     time_Parse time_RFC3339 (CreationTime (MediaMetadata item)) = Err err ->
     getFileName Options item w
     = (Ret (hashPath Options (Id item)), record (EvLog (LogError err)) w)) /\
  (forall item' w',
     Id item' = Id item ->
     CreationTime (MediaMetadata item') = CreationTime (MediaMetadata item) ->
     (getFileName Options item' w').1 = (getFileName Options item w).1) /\
  (forall item' w' err err',
     Id item' = Id item ->
     time_Parse time_RFC3339 (CreationTime (MediaMetadata item)) = Err err ->
     time_Parse time_RFC3339 (CreationTime (MediaMetadata item')) = Err err' ->
     (getFileName Options item' w').1 = (getFileName Options item w).1).
Proof.
  assert (Hok : forall it v t,
    time_Parse time_RFC3339 (CreationTime (MediaMetadata it)) = Ok t ->
    8 <= GoString.len (Id it) ->
    getFileName Options it v = (Ret (timePath Options t (Id it)), v)).
  { intros it v t Ht Hid. unfold getFileName.
    erewrite run_bind_ret by (by apply getFileNameByTime_ok). reflexivity. }
  assert (Herr : forall it v err,
    time_Parse time_RFC3339 (CreationTime (MediaMetadata it)) = Err err ->
    getFileName Options it v
    = (Ret (hashPath Options (Id it)), record (EvLog (LogError err)) v)).
  { intros it v err Ht. unfold getFileName.
    erewrite run_bind_ret by (by apply getFileNameByTime_unparsable).
    apply getFileNameByHash_total. }
  split; [|split; [|split]].
  - intros t. apply Hok.
  - intros err. apply Herr.
  - intros item' w' Hid Hct.
    destruct (time_Parse time_RFC3339 (CreationTime (MediaMetadata item)))
      as [t|err] eqn:Ht.
    + destruct (Z_lt_le_dec (GoString.len (Id item)) 8) as [Hlt|Hge].
      * unfold getFileName.
        erewrite (run_bind_panic (getFileNameByTime Options item'))
          by (apply (getFileNameByTime_panic _ t); [congruence | by rewrite Hid]).
        erewrite (run_bind_panic (getFileNameByTime Options item))
          by (by apply (getFileNameByTime_panic _ t)).
        reflexivity.
      * rewrite (Hok item' w' t), (Hok item w t); try done; try congruence.
        by rewrite Hid.
    + rewrite (Herr item' w' err), (Herr item w err); try done; try congruence.
      simpl. by rewrite Hid.
  - intros item' w' err err' Hid Ht Ht'.
    rewrite (Herr item' w' err'), (Herr item w err) by done.
    simpl. by rewrite Hid.
Qed.

End Naming.

(** ** Frames *)

#[global] Instance keeps_preorder {X : Type} (f : World -> X) : PreOrder (keeps f).
Proof. split; [by intros w | intros w1 w2 w3; unfold keeps; congruence]. Qed.

#[global] Instance quiet_preorder : PreOrder quiet.
Proof.
  split.
  - intros w. by exists [].
  - intros w1 w2 w3 (n1 & H1 & Q1) (n2 & H2 & Q2). exists (n2 ++ n1).
    rewrite H2, H1, app_assoc. split; [done|].
    rewrite forallb_app, Q1, Q2. done.
Qed.

Section Preserves.

Context (R : relation World) `{!PreOrder R}.

Lemma preserves_ret {A : Type} (a : A) : preserves R (ret a).
Proof. intros w. simpl. reflexivity. Qed.

Lemma preserves_lift {A : Type} (r : result A) : preserves R (lift r).
Proof. intros w. simpl. reflexivity. Qed.

Lemma preserves_gets {A : Type} (f : World -> A) : preserves R (gets f).
Proof. intros w. simpl. reflexivity. Qed.

Lemma preserves_modify (f : World -> World) :
  (forall w, R w (f w)) -> preserves R (modify f).
Proof. intros Hf w. apply Hf. Qed.

Lemma preserves_bind {A B : Type} (c : M A) (k : A -> M B) :
  preserves R c -> (forall a, preserves R (k a)) -> preserves R (c ≫= k).
Proof.
  intros Hc Hk w. rewrite run_bind. specialize (Hc w).
  destruct (c w) as [[a| |] w1]; simpl in *; [|done..].
  etrans; [exact Hc | apply Hk].
Qed.

Lemma preserves_defer {A : Type} (cleanup : M unit) (body : M A) :
  preserves R body -> preserves R cleanup -> preserves R (defer cleanup body).
Proof.
  intros Hb Hc w. unfold defer. specialize (Hb w).
  destruct (body w) as [r w1]. specialize (Hc w1).
  destruct (cleanup w1) as [u w2]. simpl in *. by etrans.
Qed.

Lemma preserves_run {A : Type} (c : M A) (w w' : World) (r : result A) :
  preserves R c -> c w = (r, w') -> R w w'.
Proof. intros Hc Hw. specialize (Hc w). by rewrite Hw in Hc. Qed.

End Preserves.

Ltac preserve_step leaf :=
  first
    [ apply preserves_ret; apply _
    | apply preserves_lift; apply _
    | apply preserves_gets; apply _
    | apply preserves_bind; [apply _ | | intros ?]
    | apply preserves_defer; [apply _ | |]
    | apply preserves_modify; intros ?; leaf
    | match goal with
      | |- preserves _ (match ?x with _ => _ end) => destruct x
      | |- preserves _ (let '(_, _) := ?x in _) => destruct x
      end ].

Ltac preserve_with leaf :=
  unfold log_Print, time_Sleep, emit; repeat preserve_step leaf.

Ltac unfold_naming :=
  unfold getFileName, getFileNameByTime, getFileNameByHash.

Ltac unfold_sidecar :=
  unfold createJSON, os_Stat, os_MkdirAll, ioutil_WriteFile.

Ltac unfold_payload :=
  unfold createImage, writeImage, os_Stat, http_Get, os_Create, io_Copy,
    File_Close, Body_Close.

Ltac same := reflexivity.

Ltac one_quiet_call := first [ by eexists [] | by eexists [_] ].

(** ** Item persister *)

Section Persister.

Context {L : GoLib} (Options : OptionsT) (env : Env).

Lemma release_head (h : string) (l : list string) : release h (h :: l) = l.
Proof. simpl. by rewrite String.eqb_refl. Qed.

Lemma stat_some (w : World) (name : string) (fi : FileInfo) :
  (stat env w name).1 = Some fi -> (stat env w name).2 = None.
Proof.
  unfold stat. destruct (stat_fault env name); [done|].
  destruct (fs w !! name) as [[data|]|]; done.
Qed.

Lemma stat_regular (w : World) (name : string) (fi : FileInfo) :
  (stat env w name).1 = Some fi -> IsDir fi = false ->
  exists data, fs w !! name = Some (File data) /\ Size fi = Z.of_nat (length data).
Proof.
  unfold stat. destruct (stat_fault env name); [done|].
  destruct (fs w !! name) as [[data|]|]; simpl; intros Hfi Hdir; simplify_eq.
  by exists data.
Qed.

Lemma stat_answered (url : string) (w : World) (name : string) :
  stat env (answered url w) name = stat env w name.
Proof. reflexivity. Qed.

(** *** The metadata sidecar *)

Lemma createJSON_skip (item : MediaItem) (fileName : string) (w : World) :
  os_IsNotExist (stat env w fileName).2 = false ->
  createJSON env item fileName w = (Ret None, w).
Proof.
  intros Hstat. unfold createJSON, os_Stat. rewrite run_bind. simpl.
  destruct (stat env w fileName) as [fi err]. simpl in Hstat.
  by rewrite Hstat.
Qed.




Lemma createJSON_frame (item : MediaItem) (fileName : string) :
  preserves (keeps stats) (createJSON env item fileName) /\
  preserves (keeps open_bodies) (createJSON env item fileName) /\
  preserves (keeps (fun w => fetches (history w))) (createJSON env item fileName) /\
  preserves (keeps (fun w => creations (history w))) (createJSON env item fileName).
Proof. repeat split; unfold_sidecar; preserve_with same. Qed.

Lemma getFileName_frame (item : MediaItem) :
  preserves (keeps fs) (getFileName Options item) /\
  preserves (keeps stats) (getFileName Options item) /\
  preserves (keeps open_bodies) (getFileName Options item) /\
  preserves (keeps (fun w => fetches (history w))) (getFileName Options item) /\
  preserves (keeps (fun w => creations (history w))) (getFileName Options item) /\
  preserves (keeps (fun w => writes (history w))) (getFileName Options item).
Proof. repeat split; unfold_naming; preserve_with same. Qed.

Lemma writeImage_fs_frame (fileName : string) (response : Response) (p : string) :
  p <> fileName ->
  preserves (keeps (fun w => fs w !! p)) (writeImage env fileName response).
Proof.
  intros Hp w. unfold keeps, writeImage, os_Create. run.
  destruct (open_fault env fileName); [reflexivity|].
  assert (Hcopy : forall v,
    fs (defer (File_Close fileName)
          (defer (Body_Close (Body response))
             (io_Copy fileName (Body response) ≫= fun '(n, err) =>
                match err with
                | Some _ => ret err
                | None =>
                    log_Print (LogDownloaded fileName n);;
                    modify (with_stats (fun s =>
                      {| total := total s; errors := errors s;
                         totalsize := totalsize s;
                         downloaded := GoInt.add (downloaded s) 1 |}));;
                    modify (with_stats (fun s =>
                      {| total := total s; errors := errors s;
                         totalsize := GoInt.uadd (totalsize s) n;
                         downloaded := downloaded s |}));;
                    ret None
                end)) v).2 !! p = fs v !! p).
  { intros v. unfold defer, io_Copy, File_Close, Body_Close. run.
    destruct (ending (Body response)); simpl; by rewrite lookup_insert_ne. }
  destruct (fs w !! fileName) as [[data|]|]; simpl; try reflexivity;
    rewrite Hcopy; simpl; by rewrite lookup_insert_ne.
Qed.

Lemma createImage_frame (item : MediaItem) (fileName : string) :
  preserves (keeps (fun w => writes (history w))) (createImage env item fileName) /\
  (forall p, p <> fileName ->
     preserves (keeps (fun w => fs w !! p)) (createImage env item fileName)).
Proof.
  split; [unfold_payload; preserve_with same|].
  intros p Hp. unfold createImage, os_Stat, http_Get.
  unfold log_Print, emit.
  repeat first [ by apply writeImage_fs_frame | preserve_step same ].
Qed.

Lemma downloadItem_run (item : MediaItem) (w w1 : World) (name : string) :
  getFileName Options item w = (Ret name, w1) ->
  downloadItem Options env item w
  = match createJSON env item (jsonName name) w1 with
    | (Ret None, w2) => createImage env item (imageName item name) w2
    | (Ret (Some e), w2) => (Ret (Some e), w2)
    | (Panic msg, w2) => (Panic msg, w2)
    | (OutOfFuel, w2) => (OutOfFuel, w2)
    end.
Proof.
  intros Hname. unfold downloadItem.
  erewrite run_bind_ret by exact Hname. rewrite run_bind.
  destruct (createJSON env item (jsonName name) w1) as [[[e|]| |] w2]; reflexivity.
Qed.

(** *** The payload *)

Lemma createImage_answered (item : MediaItem) (fileName : string) (w : World)
    cl bytes fin :
  content_server env (payloadUrl item) = Ok (cl, bytes, fin) ->
  createImage env item fileName w
  = (let response :=
       {| ContentLength := cl;
          Body := {| source := payloadUrl item; arriving := bytes; ending := fin |} |} in
     match (stat env w fileName).1 with
     | Some fileInfo =>
         if cl =? Size fileInfo then
           log_Print LogAlreadyDownloaded;; ret None
         else
           log_Print LogSizeChanged;; writeImage env fileName response
     | None =>
         if bool_decide ((stat env w fileName).2 <> None)
            && negb (os_IsNotExist (stat env w fileName).2) then
           log_Print LogStatFailed;; ret (stat env w fileName).2
         else
           log_Print LogNotYetDownloaded;; writeImage env fileName response
     end) (answered (payloadUrl item) w).
Proof.
  intros Hget. unfold createImage, http_Get, os_Stat. run. rewrite Hget. run.
  change (with_open_bodies (cons (payloadUrl item))
            (record (EvGet (payloadUrl item)) w))
    with (answered (payloadUrl item) w).
  rewrite stat_answered. destruct (stat env w fileName) as [[fi|] err]; reflexivity.
Qed.

Lemma writeImage_refused (fileName : string) (response : Response) (w : World) e :
  open_fault env fileName = Some e ->
  writeImage env fileName response w
  = (Ret (Some (PathError "open" fileName e)), record (EvCreate fileName) w).
Proof. intros Ho. unfold writeImage, os_Create. run. by rewrite Ho. Qed.

Lemma writeImage_granted (fileName : string) (response : Response) (w : World) old :
  open_fault env fileName = None ->
  fs w !! fileName = Some (File old) \/ fs w !! fileName = None ->
  let w' := (writeImage env fileName response w).2 in
  (writeImage env fileName response w).1 = Ret (ending (Body response)) /\
  fs w' = <[fileName := File (arriving (Body response))]> (fs w) /\
  creations (history w') = fileName :: creations (history w) /\
  open_bodies w' = release (source (Body response)) (open_bodies w) /\
  open_files w' = open_files w /\
  closed_bodies (history w') = source (Body response) :: closed_bodies (history w) /\
  stats w'
  = match ending (Body response) with
    | Some _ => stats w
    | None =>
        {| total := total (stats w); errors := errors (stats w);
           totalsize := GoInt.uadd (totalsize (stats w))
                          (Z.of_nat (length (arriving (Body response))));
           downloaded := GoInt.add (downloaded (stats w)) 1 |}
    end.
Proof.
  intros Ho Hfile. unfold writeImage, os_Create. run. rewrite Ho.
  assert (Hrun : forall v,
    v = with_open_files (cons fileName)
          (with_fs <[fileName := File []]> (record (EvCreate fileName) w)) ->
    let r := defer (File_Close fileName)
          (defer (Body_Close (Body response))
             (io_Copy fileName (Body response) ≫= fun '(n, err) =>
                match err with
                | Some _ => ret err
                | None =>
                    log_Print (LogDownloaded fileName n);;
                    modify (with_stats (fun s =>
                      {| total := total s; errors := errors s;
                         totalsize := totalsize s;
                         downloaded := GoInt.add (downloaded s) 1 |}));;
                    modify (with_stats (fun s =>
                      {| total := total s; errors := errors s;
                         totalsize := GoInt.uadd (totalsize s) n;
                         downloaded := downloaded s |}));;
                    ret None
                end)) v in
    r.1 = Ret (ending (Body response)) /\
    fs r.2 = <[fileName := File (arriving (Body response))]> (fs w) /\
    creations (history r.2) = fileName :: creations (history w) /\
    open_bodies r.2 = release (source (Body response)) (open_bodies w) /\
    open_files r.2 = open_files w /\
    closed_bodies (history r.2) = source (Body response) :: closed_bodies (history w) /\
    stats r.2
    = match ending (Body response) with
      | Some _ => stats w
      | None =>
          {| total := total (stats w); errors := errors (stats w);
             totalsize := GoInt.uadd (totalsize (stats w))
                            (Z.of_nat (length (arriving (Body response))));
             downloaded := GoInt.add (downloaded (stats w)) 1 |}
      end).
  { intros v ->. unfold defer, io_Copy, File_Close, Body_Close. run.
    rewrite lookup_insert_eq. simpl.
    destruct (ending (Body response)); simpl;
      rewrite insert_insert_eq, String.eqb_refl; done. }
  destruct Hfile as [-> | ->]; simpl; by apply Hrun.
Qed.

(** C1, as the code has it: when the payload file is there with the
    size the response announces, [createImage] returns success, creates
    and writes nothing, and leaves every counter as it was; but it
    returns with the body of the response still open: the close is
    deferred only further down, after this return. *)
Theorem createImage_already_downloaded (item : MediaItem) (fileName : string)
    (w : World) cl bytes fin fi :
  content_server env (payloadUrl item) = Ok (cl, bytes, fin) ->
  (stat env w fileName).1 = Some fi ->
  Size fi = cl ->
  let w' := record (EvLog LogAlreadyDownloaded) (answered (payloadUrl item) w) in
  createImage env item fileName w = (Ret None, w') /\
  fs w' = fs w /\
  creations (history w') = creations (history w) /\
  writes (history w') = writes (history w) /\
  stats w' = stats w /\
  open_bodies w' = payloadUrl item :: open_bodies w /\
  closed_bodies (history w') = closed_bodies (history w).
Proof.
  intros Hget Hfi Hsize. simpl. split; [|done].
  rewrite (createImage_answered _ _ _ cl bytes fin) by done.
  simpl. rewrite Hfi, Hsize, Z.eqb_refl. reflexivity.
Qed.

(** C4, as amended: when the payload file is there with a size other
    than the one the response announces, [createImage] goes on to create
    the file anew.  If the file may be opened for writing, it is
    truncated and holds exactly the bytes that arrived, both handles are
    closed, and on a copy without error the downloaded counter goes up
    by one and the byte counter by the number of bytes copied (no
    counter moves when the copy fails).  If opening it is refused, that
    error is returned and files and counters are as they were. *)
Theorem createImage_size_changed (item : MediaItem) (fileName : string)
    (w : World) cl bytes fin fi :
  content_server env (payloadUrl item) = Ok (cl, bytes, fin) ->
  (stat env w fileName).1 = Some fi ->
  Size fi <> cl ->
  let r := createImage env item fileName w in
  (open_fault env fileName = None -> IsDir fi = false ->
     r.1 = Ret fin /\
     fs r.2 = <[fileName := File bytes]> (fs w) /\
     creations (history r.2) = fileName :: creations (history w) /\
     open_bodies r.2 = open_bodies w /\
     open_files r.2 = open_files w /\
     (fin = None ->
        downloaded (stats r.2) = GoInt.add (downloaded (stats w)) 1 /\
        totalsize (stats r.2)
        = GoInt.uadd (totalsize (stats w)) (Z.of_nat (length bytes)) /\
        total (stats r.2) = total (stats w) /\
        errors (stats r.2) = errors (stats w)) /\
     (fin <> None -> stats r.2 = stats w)) /\
  (forall e, open_fault env fileName = Some e ->
     r.1 = Ret (Some (PathError "open" fileName e)) /\
     fs r.2 = fs w /\ stats r.2 = stats w).
Proof.
  intros Hget Hfi Hsize r. subst r.
  rewrite (createImage_answered _ _ _ cl bytes fin) by done.
  simpl. rewrite Hfi.
  rewrite (proj2 (Z.eqb_neq cl (Size fi))) by congruence.
  unfold log_Print, emit. run. split.
  - intros Ho Hdir.
    destruct (stat_regular _ _ _ Hfi Hdir) as (old & Hold & _).
    set (response := {| ContentLength := cl; Body := _ |}).
    destruct (writeImage_granted fileName response
                (record (EvLog LogSizeChanged) (answered (payloadUrl item) w))
                old Ho (or_introl Hold))
      as (Hr & Hfs & Hcr & Hob & Hof & _ & Hst).
    simpl in *. rewrite String.eqb_refl in Hob.
    split_and!; try done.
    + intros ->. by rewrite Hst.
    + intros Hfin. rewrite Hst. by destruct fin.
  - intros e Ho. by rewrite (writeImage_refused _ _ _ e).
Qed.

Lemma downloadItem_frame (item : MediaItem) :
  preserves (keeps (fun w => total (stats w))) (downloadItem Options env item) /\
  preserves (keeps (fun w => errors (stats w))) (downloadItem Options env item) /\
  preserves quiet (downloadItem Options env item).
Proof.
  split_and!; unfold downloadItem; unfold_naming; unfold_sidecar; unfold_payload.
  - preserve_with same.
  - preserve_with same.
  - preserve_with one_quiet_call.
Qed.

Lemma persistCounted_success (item : MediaItem) (w w' : World) :
  downloadItem Options env item w = (Ret None, w') ->
  persistCounted Options env item w = (Ret tt, w').
Proof.
  intros Hd. unfold persistCounted. by erewrite run_bind_ret by exact Hd.
Qed.

Lemma persistCounted_failure (item : MediaItem) (w w' : World) e :
  downloadItem Options env item w = (Ret (Some e), w') ->
  persistCounted Options env item w
  = (Ret tt, with_stats incr_errors (record (EvLog (LogFailed (Id item) e)) w')).
Proof.
  intros Hd. unfold persistCounted. by erewrite run_bind_ret by exact Hd.
Qed.


(** C10: when [os.Stat] on the sidecar fails with an error other than
    not-exist, [createJSON] returns success without writing or changing
    anything, exactly as it does for a sidecar that is there; persisting
    the item goes straight on to the payload, and when the payload step
    succeeds the item is accounted for with no error logged or counted. *)
Theorem createJSON_unreadable_sidecar (item : MediaItem) (w w1 : World)
    (name : string) (err : error) :
  getFileName Options item w = (Ret name, w1) ->
  stat env w1 (jsonName name) = (None, Some err) ->
  os_IsNotExist (Some err) = false ->
  createJSON env item (jsonName name) w1 = (Ret None, w1) /\
  (forall v fi, (stat env v (jsonName name)).1 = Some fi ->
     createJSON env item (jsonName name) v = (Ret None, v)) /\
  downloadItem Options env item w
  = createImage env item (imageName item name) w1 /\
  (forall w2, createImage env item (imageName item name) w1 = (Ret None, w2) ->
     persistCounted Options env item w = (Ret tt, w2) /\
     errors (stats w2) = errors (stats w)).
Proof.
  intros Hname Hstat Herr.
  assert (Hskip : createJSON env item (jsonName name) w1 = (Ret None, w1)).
  { apply createJSON_skip. by rewrite Hstat. }
  assert (Hrun : downloadItem Options env item w
                 = createImage env item (imageName item name) w1).
  { rewrite (downloadItem_run _ _ _ _ Hname). by rewrite Hskip. }
  split_and!; try done.
  - intros v fi Hfi. apply createJSON_skip. by rewrite (stat_some _ _ _ Hfi).
  - intros w2 Himg. rewrite <- Hrun in Himg. split.
    + by apply persistCounted_success.
    + destruct (downloadItem_frame item) as (_ & Kerr & _).
      apply (preserves_run _ _ _ _ _ Kerr Himg).
Qed.

End Persister.

(** ** Pagination driver *)

Lemma run_bind_assoc {A B C : Type} (c : M A) (k : A -> M B) (k' : B -> M C)
    (w : World) :
  ((c ≫= k) ≫= k') w = (c ≫= fun a => k a ≫= k') w.
Proof.
  rewrite !run_bind. destruct (c w) as [[a| |] w1]; [|done..].
  by rewrite run_bind.
Qed.

Lemma quiet_searches (w w' : World) :
  quiet w w' -> searches (history w') = searches (history w).
Proof.
  intros (new & -> & Hq). induction new as [|e new IH]; [done|].
  simpl in Hq. apply andb_prop in Hq as [He Hq].
  simpl. unfold searches in *. destruct e; simpl in *; try done; by apply IH.
Qed.

(** *** The pace automaton *)

Lemma pace_run_cons (th : Z) (p : pace) (e : event) (calls : list event) :
  pace_run th p (e :: calls)
  = match pace_step th p e with
    | Some p' => pace_run th p' calls
    | None => None
    end.
Proof. reflexivity. Qed.

Lemma pace_run_app (th : Z) (p : pace) (a b : list event) :
  pace_run th p (a ++ b)
  = match pace_run th p a with
    | Some p' => pace_run th p' b
    | None => None
    end.
Proof.
  revert p. induction a as [|e a IH]; intros p; simpl; [done|].
  destruct (pace_step th p e); [apply IH | done].
Qed.

Lemma pace_step_quiet (th : Z) (e : event) :
  driver_event e = false -> pace_step th Idle e = Some Idle.
Proof. intros He. destruct e as [[]| | | | | | | |]; simpl in *; done. Qed.

Lemma pace_run_quiet (th : Z) (calls : list event) :
  forallb (fun e => negb (driver_event e)) calls = true ->
  pace_run th Idle calls = Some Idle.
Proof.
  induction calls as [|e calls IH]; [done|].
  intros Hq. simpl in Hq. apply andb_prop in Hq as [He Hq].
  rewrite pace_run_cons, pace_step_quiet by by destruct (driver_event e).
  by apply IH.
Qed.

Lemma paced_refl (th : Z) (p : pace) (w : World) : paced th p p w w.
Proof. by exists []. Qed.

Lemma paced_trans (th : Z) (p1 p2 p3 : pace) (w1 w2 w3 : World) :
  paced th p1 p2 w1 w2 -> paced th p2 p3 w2 w3 -> paced th p1 p3 w1 w3.
Proof.
  intros (c1 & H1 & R1) (c2 & H2 & R2). exists (c1 ++ c2). split.
  - by rewrite H2, H1, reverse_app, app_assoc.
  - by rewrite pace_run_app, R1.
Qed.

Lemma quiet_paced (th : Z) (w w' : World) : quiet w w' -> paced th Idle Idle w w'.
Proof.
  intros (new & Hh & Hq). exists (reverse new). split.
  - by rewrite reverse_involutive.
  - apply pace_run_quiet. rewrite <- Hq.
    clear. induction new as [|e new IH]; [done|].
    rewrite reverse_cons, forallb_app, IH. simpl. by rewrite andb_true_r, andb_comm.
Qed.

Ltac step_inv H :=
  simpl in H;
  repeat match type of H with
         | context [if ?c =? ?t then _ else _] =>
             destruct (Z.eqb_spec c t); [subst|]
         | context [if ?c then _ else _] => destruct c
         end;
  try done; simplify_eq.

(** A fetch is accepted only after the sleep. *)
Lemma pace_before_search (th : Z) (p p' : pace) (a b : list event) req :
  pace_run th p (a ++ EvSearch req :: b) = Some p' ->
  pace_run th p a = Some Slept.
Proof.
  rewrite pace_run_app. destruct (pace_run th p a) as [[]|]; simpl; done.
Qed.

(** The sleep is accepted only after the progress line, and for the
    throttle interval. *)
Lemma pace_slept (th : Z) (a : list event) :
  pace_run th Idle a = Some Slept ->
  exists a', a = a' ++ [EvSleep th] /\ pace_run th Idle a' = Some Announced.
Proof.
  destruct a as [|e a _] using rev_ind; [done|].
  rewrite pace_run_app. destruct (pace_run th Idle a) as [q|] eqn:Hq; [|done].
  simpl. destruct (pace_step th q e) as [q'|] eqn:Hstep; [|done].
  intros [= ->]. destruct q, e as [[]| | | | | | | |]; step_inv Hstep.
  by exists a.
Qed.

Lemma pace_announced (th : Z) (a : list event) :
  pace_run th Idle a = Some Announced ->
  exists a' t d e s, a = a' ++ [EvLog (LogProgress t d e s th)] /\
                     pace_run th Idle a' = Some Idle.
Proof.
  destruct a as [|ev a _] using rev_ind; [done|].
  rewrite pace_run_app. destruct (pace_run th Idle a) as [q|] eqn:Hq; [|done].
  simpl. destruct (pace_step th q ev) as [q'|] eqn:Hstep; [|done].
  intros [= ->]. destruct q, ev as [[]| | | | | | | |]; step_inv Hstep.
  by eexists a, _, _, _, _.
Qed.

Lemma pace_search_preceded (th : Z) (p' : pace) (calls a b : list event) req :
  pace_run th Idle calls = Some p' ->
  calls = a ++ EvSearch req :: b ->
  exists a' t d e s,
    a = a' ++ [EvLog (LogProgress t d e s th); EvSleep th].
Proof.
  intros Hrun ->. apply pace_before_search in Hrun.
  apply pace_slept in Hrun as (a1 & -> & Hrun).
  apply pace_announced in Hrun as (a2 & t & d & e & s & -> & _).
  exists a2, t, d, e, s. by rewrite <- app_assoc.
Qed.

Lemma pace_sleep_followed (th : Z) (p' : pace) (calls a b : list event) d :
  pace_run th Idle calls = Some p' ->
  p' = Idle \/ p' = Summed ->
  calls = a ++ EvSleep d :: b ->
  exists req b', b = EvSearch req :: b'.
Proof.
  intros Hrun Hend ->. rewrite pace_run_app in Hrun.
  destruct (pace_run th Idle a) as [q|]; [|done]. simpl in Hrun.
  destruct (pace_step th q (EvSleep d)) as [q'|] eqn:Hstep; [|done].
  destruct q; step_inv Hstep.
  destruct b as [|e b]; simpl in Hrun.
  - destruct Hend; by simplify_eq.
  - destruct e as [[]| | | | | | | |]; simpl in Hrun; try done.
    by eexists _, _.
Qed.

Lemma pace_summed (th : Z) (calls : list event) :
  pace_run th Idle calls = Some Summed ->
  exists a t d e s, calls = a ++ [EvLog (LogSummary t d e s)].
Proof.
  destruct calls as [|ev a _] using rev_ind; [done|].
  rewrite pace_run_app. destruct (pace_run th Idle a) as [q|] eqn:Hq; [|done].
  simpl. destruct (pace_step th q ev) as [q'|] eqn:Hstep; [|done].
  intros [= ->]. destruct q, ev as [[]| | | | | | | |]; step_inv Hstep.
  by eexists a, _, _, _, _.
Qed.

Lemma pace_not_summed (th : Z) (p : pace) (calls : list event) :
  pace_run th p calls = Some Idle ->
  forallb (fun e => negb (is_summary e)) calls = true.
Proof.
  revert p. induction calls as [|ev calls IH]; intros p; simpl; [done|].
  destruct (pace_step th p ev) as [q|] eqn:Hstep; [|done].
  intros Hrun. rewrite (IH q Hrun), andb_true_r.
  destruct ev as [[]| | | | | | | |]; simpl; try done.
  destruct p; step_inv Hstep.
  destruct calls; simpl in Hrun; done.
Qed.

Section Driver.

Context {L : GoLib} (Options : OptionsT) (env : Env).

Lemma persistCounted_frame (m : MediaItem) :
  preserves (keeps (fun w => total (stats w))) (persistCounted Options env m) /\
  preserves quiet (persistCounted Options env m).
Proof.
  destruct (downloadItem_frame Options env m) as (Kt & _ & Kq).
  split; unfold persistCounted.
  - repeat first [ exact Kt | preserve_step same ].
  - unfold log_Print, emit.
    repeat first [ exact Kq | preserve_step one_quiet_call ].
Qed.

Lemma rangeMediaItems_quiet (hasMore : bool) (items : list MediaItem) :
  preserves quiet (rangeMediaItems Options env hasMore items).
Proof.
  induction items as [|m rest IH]; simpl.
  - apply preserves_ret; apply _.
  - destruct (downloadItem_frame Options env m) as (_ & _ & Kq).
    unfold log_Print, emit.
    repeat first [ exact Kq | exact IH | preserve_step one_quiet_call ].
Qed.

Lemma rangeMediaItems_cons (hasMore : bool) (m : MediaItem)
    (rest : list MediaItem) (w : World) :
  rangeMediaItems Options env hasMore (m :: rest) w
  = if MaxItems Options <? total (stats (with_stats incr_total w))
    then (Ret false, with_stats incr_total w)
    else (persistCounted Options env m;;
          rangeMediaItems Options env hasMore rest) (with_stats incr_total w).
Proof.
  simpl. rewrite run_bind. unfold modify at 1. rewrite run_bind. unfold gets at 1.
  change (total (stats (with_stats incr_total w)))
    with (GoInt.add (total (stats w)) 1).
  destruct (MaxItems Options <? GoInt.add (total (stats w)) 1); [done|].
  unfold persistCounted. rewrite !run_bind.
  destruct (downloadItem Options env m (with_stats incr_total w))
    as [[[e|]| |] w1]; reflexivity.
Qed.

Lemma persistEach_cons {B : Type} (m : MediaItem) (rest : list MediaItem)
    (k : unit -> M B) (w : World) :
  (persistEach Options env (m :: rest) ≫= k) w
  = (persistCounted Options env m;; persistEach Options env rest ≫= k)
      (with_stats incr_total w).
Proof.
  rewrite run_bind.
  change (persistEach Options env (m :: rest) w)
    with ((persistCounted Options env m;; persistEach Options env rest)
            (with_stats incr_total w)).
  rewrite !run_bind.
  destruct (persistCounted Options env m (with_stats incr_total w))
    as [[[]| |] w1]; done.
Qed.

(** The range loop under the cap: with [t] items counted so far and
    more items on the page than the cap leaves room for, the loop
    persists the items the cap admits, counts one more and stops. *)
Lemma rangeMediaItems_cap (items : list MediaItem) (w : World) :
  0 <= total (stats w) <= MaxItems Options ->
  MaxItems Options < GoInt.max_int ->
  MaxItems Options - total (stats w) < Z.of_nat (length items) ->
  rangeMediaItems Options env true items w
  = (persistEach Options env
       (take (Z.to_nat (MaxItems Options - total (stats w))) items);;
     modify (with_stats incr_total);;
     ret false) w.
Proof.
  revert w. induction items as [|m rest IH]; intros w Ht Hmax Hlen.
  - simpl in Hlen. lia.
  - rewrite rangeMediaItems_cons.
    assert (Hincr : total (stats (with_stats incr_total w)) = total (stats w) + 1).
    { simpl. apply int_incr. unfold GoInt.min_int. lia. }
    rewrite Hincr.
    destruct (Z.ltb_spec (MaxItems Options) (total (stats w) + 1)) as [Hcap|Hroom].
    + replace (MaxItems Options - total (stats w)) with 0 by lia. reflexivity.
    + replace (Z.to_nat (MaxItems Options - total (stats w)))
        with (S (Z.to_nat (MaxItems Options - (total (stats w) + 1)))) by lia.
      rewrite firstn_cons, persistEach_cons, !run_bind.
      destruct (persistCounted_frame m) as [Kt _].
      specialize (Kt (with_stats incr_total w)). unfold keeps in Kt.
      destruct (persistCounted Options env m (with_stats incr_total w))
        as [[[]| |] w2]; try done.
      simpl in Kt. simpl in Hincr. rewrite Hincr in Kt.
      rewrite <- Kt. apply IH; rewrite ?Kt; simpl in *; lia.
Qed.

Lemma persistEach_frame (items : list MediaItem) :
  preserves quiet (persistEach Options env items).
Proof.
  induction items as [|m rest IH]; simpl.
  - apply preserves_ret; apply _.
  - destruct (persistCounted_frame m) as [_ Kq].
    repeat first [ exact Kq | exact IH | preserve_step one_quiet_call ].
Qed.

Lemma persistEach_total (items : list MediaItem) (w w' : World) :
  persistEach Options env items w = (Ret tt, w') ->
  0 <= total (stats w) ->
  total (stats w) + Z.of_nat (length items) <= GoInt.max_int ->
  total (stats w') = total (stats w) + Z.of_nat (length items).
Proof.
  revert w. induction items as [|m rest IH]; intros w Hrun H0 Hmax.
  - simpl in *. unfold ret in Hrun. simplify_eq. lia.
  - change (persistEach Options env (m :: rest) w)
      with ((persistCounted Options env m;; persistEach Options env rest)
              (with_stats incr_total w)) in Hrun.
    rewrite run_bind in Hrun.
    destruct (persistCounted_frame m) as [Kt _].
    specialize (Kt (with_stats incr_total w)). unfold keeps in Kt.
    destruct (persistCounted Options env m (with_stats incr_total w))
      as [[[]| |] w1]; try done.
    simpl in Kt. simpl length in *.
    rewrite int_incr in Kt by (unfold GoInt.min_int; lia).
    rewrite (IH w1 Hrun) by lia. lia.
Qed.

Lemma pages_done (fuel : nat) (req : SearchMediaItemsRequest) (w : World) :
  pages Options env fuel false req w = (Ret None, w).
Proof. by destruct fuel. Qed.

Lemma pages_step (fuel : nat) (req : SearchMediaItemsRequest) (w : World) :
  pages Options env (S fuel) true req w
  = match listing_service env req with
    | Err err => (Ret (Some err), page_start Options req w)
    | Ok items =>
        (hasMore ← rangeMediaItems Options env true (MediaItems items);
         pages Options env fuel
           (if String.eqb (NextPageToken items) EmptyString then false else hasMore)
           (set_PageToken req (NextPageToken items)))
          (page_start Options req w)
    end.
Proof.
  simpl. unfold MediaItems_Search_Do, log_Print, time_Sleep, emit.
  rewrite run_bind. unfold gets at 1.
  rewrite run_bind. unfold modify at 1.
  rewrite run_bind. unfold modify at 1.
  rewrite run_bind, run_bind. unfold modify at 1. unfold ret at 1.
  by destruct (listing_service env req).
Qed.

Lemma DownloadAll_run (fuel : nat) (w : World) :
  DownloadAll Options env fuel w
  = match pages Options env fuel true (first_request Options) (reset_stats w) with
    | (Ret None, w') => (Ret None, summary_line w')
    | other => other
    end.
Proof.
  unfold DownloadAll. rewrite run_bind. unfold modify at 1.
  rewrite run_bind.
  change (with_stats _ w) with (reset_stats w).
  change {| AlbumId := AlbumID Options; photoslibrary.PageSize := PageSize Options;
            PageToken := EmptyString |} with (first_request Options).
  by destruct (pages Options env fuel true (first_request Options) (reset_stats w))
    as [[[e|]| |] w'].
Qed.

(** The page on which the cap falls, anywhere in a run. *)
Lemma pages_cap (fuel : nat) (req : SearchMediaItemsRequest) (w : World)
    (items : SearchMediaItemsResponse) :
  listing_service env req = Ok items ->
  0 <= total (stats w) <= MaxItems Options ->
  MaxItems Options < GoInt.max_int ->
  MaxItems Options - total (stats w) < Z.of_nat (length (MediaItems items)) ->
  pages Options env (S fuel) true req w
  = (persistEach Options env
       (take (Z.to_nat (MaxItems Options - total (stats w))) (MediaItems items));;
     modify (with_stats incr_total);;
     ret None) (page_start Options req w).
Proof.
  intros Hlist Ht Hmax Hlen. rewrite pages_step, Hlist, run_bind.
  rewrite rangeMediaItems_cap by done.
  change (total (stats (page_start Options req w))) with (total (stats w)).
  rewrite !run_bind.
  destruct (persistEach Options env _ (page_start Options req w))
    as [[[]| |] w2]; try done.
  unfold modify at 1. unfold modify at 1. rewrite !run_bind.
  unfold ret at 1. unfold ret at 1.
  destruct (String.eqb (NextPageToken items) EmptyString); by rewrite pages_done.
Qed.

(** C2: with [MaxItems = N] and a first page of [N + k] items, [k >= 1],
    the run is exactly this: items 1 to N are examined and persisted,
    the item after them is counted and nothing more is done with the
    page, the summary is printed and the run returns success.  So when
    those N items are got through, [total] ends at [N + 1], the other
    counters and the files are as items 1 to N left them, and the one
    page fetch of the run is the first, whatever continuation token came
    with the page. *)
Theorem DownloadAll_cap (fuel : nat) (w : World) (page : list MediaItem)
    (token : string) :
  0 <= MaxItems Options ->
  MaxItems Options < Z.of_nat (length page) ->
  Z.of_nat (length page) <= GoInt.max_int ->
  listing_service env (first_request Options)
  = Ok {| MediaItems := page; NextPageToken := token |} ->
  let first_N := take (Z.to_nat (MaxItems Options)) page in
  let w1 := page_start Options (first_request Options) (reset_stats w) in
  DownloadAll Options env (S fuel) w
  = (persistEach Options env first_N;;
     modify (with_stats incr_total);;
     modify summary_line;;
     ret None) w1 /\
  (forall w2, persistEach Options env first_N w1 = (Ret tt, w2) ->
     let w3 := summary_line (with_stats incr_total w2) in
     DownloadAll Options env (S fuel) w = (Ret None, w3) /\
     total (stats w3) = MaxItems Options + 1 /\
     downloaded (stats w3) = downloaded (stats w2) /\
     errors (stats w3) = errors (stats w2) /\
     totalsize (stats w3) = totalsize (stats w2) /\
     fs w3 = fs w2 /\
     searches (history w3) = first_request Options :: searches (history w)).
Proof.
  intros H0 Hlen Hmax Hlist first_N w1.
  assert (Hrun : DownloadAll Options env (S fuel) w
    = (persistEach Options env first_N;;
       modify (with_stats incr_total);;
       modify summary_line;;
       ret None) w1).
  { rewrite DownloadAll_run.
    rewrite (pages_cap _ _ _ _ Hlist); simpl total; simpl MediaItems; try lia.
    subst first_N w1. rewrite Z.sub_0_r. rewrite !run_bind.
    by destruct (persistEach Options env _ _) as [[[]| |] w2]. }
  split; [exact Hrun|].
  intros w2 Hw2 w3. rewrite Hrun, run_bind, Hw2.
  split_and!; try done.
  - subst w3. simpl.
    rewrite (persistEach_total _ _ _ Hw2); simpl.
    + subst first_N. rewrite length_take.
      rewrite int_incr; unfold GoInt.min_int; lia.
    + lia.
    + subst first_N. rewrite length_take. lia.
  - subst w3. simpl.
    rewrite (quiet_searches w1 w2); [done|].
    eapply preserves_run; [apply persistEach_frame | exact Hw2].
Qed.

(** C3: a failure to persist an item is logged, adds exactly one to the
    errors counter and the loop goes on with the item after it; a
    failure of the page listing makes the run return that error at once,
    with the files and counters that the pages before it produced as
    they stand. *)
Theorem failures_item_and_listing :
  (forall m rest w e w2,
     total (stats (with_stats incr_total w)) <= MaxItems Options ->
     downloadItem Options env m (with_stats incr_total w) = (Ret (Some e), w2) ->
     let w3 := with_stats incr_errors (record (EvLog (LogFailed (Id m) e)) w2) in
     rangeMediaItems Options env true (m :: rest) w
     = rangeMediaItems Options env true rest w3 /\
     errors (stats w3) = GoInt.add (errors (stats w)) 1 /\
     (0 <= errors (stats w) < GoInt.max_int ->
        errors (stats w3) = errors (stats w) + 1)) /\
  (forall fuel req w err,
     listing_service env req = Err err ->
     pages Options env (S fuel) true req w
     = (Ret (Some err), page_start Options req w) /\
     fs (page_start Options req w) = fs w /\
     stats (page_start Options req w) = stats w) /\
  (forall fuel w err w',
     pages Options env fuel true (first_request Options) (reset_stats w)
     = (Ret (Some err), w') ->
     DownloadAll Options env fuel w = (Ret (Some err), w')) /\
  (forall fuel req w items w2 err,
     listing_service env req = Ok items ->
     NextPageToken items <> EmptyString ->
     rangeMediaItems Options env true (MediaItems items) (page_start Options req w)
     = (Ret true, w2) ->
     listing_service env (set_PageToken req (NextPageToken items)) = Err err ->
     let w3 := page_start Options (set_PageToken req (NextPageToken items)) w2 in
     pages Options env (S (S fuel)) true req w = (Ret (Some err), w3) /\
     fs w3 = fs w2 /\ stats w3 = stats w2).
Proof.
  split_and!.
  - intros m rest w e w2 Hcap Hd w3.
    assert (Herr : errors (stats w3) = GoInt.add (errors (stats w)) 1).
    { destruct (downloadItem_frame Options env m) as (_ & Ke & _).
      pose proof (preserves_run _ _ _ _ _ Ke Hd) as He. unfold keeps in He.
      subst w3. simpl in *. by rewrite He. }
    split_and!.
    + rewrite rangeMediaItems_cons.
      rewrite (proj2 (Z.ltb_ge _ _)) by done.
      rewrite run_bind. by rewrite (persistCounted_failure _ _ _ _ _ e Hd).
    + exact Herr.
    + intros Hrange. rewrite Herr. apply int_incr. unfold GoInt.min_int. lia.
  - intros fuel req w err Hlist. by rewrite pages_step, Hlist.
  - intros fuel w err w' Hpages. by rewrite DownloadAll_run, Hpages.
  - intros fuel req w items w2 err Hlist Htoken Hrange Hnext w3.
    rewrite pages_step, Hlist, run_bind, Hrange.
    rewrite (proj2 (String.eqb_neq _ _)) by done.
    by rewrite pages_step, Hnext.
Qed.

(** C8: a listing response with an empty continuation token is the last
    one of the run: once the items of that page have been gone through,
    the loop ends without another fetch, and the run prints its summary
    and returns success. *)
Theorem empty_token_ends_the_run (fuel : nat) (req : SearchMediaItemsRequest)
    (w : World) (items : SearchMediaItemsResponse) :
  listing_service env req = Ok items ->
  NextPageToken items = EmptyString ->
  let w1 := page_start Options req w in
  pages Options env (S fuel) true req w
  = (rangeMediaItems Options env true (MediaItems items);; ret None) w1 /\
  (forall hasMore w2,
     rangeMediaItems Options env true (MediaItems items) w1 = (Ret hasMore, w2) ->
     pages Options env (S fuel) true req w = (Ret None, w2) /\
     searches (history w2) = req :: searches (history w) /\
     (forall w0, w = reset_stats w0 -> req = first_request Options ->
        DownloadAll Options env (S fuel) w0 = (Ret None, summary_line w2) /\
        searches (history (summary_line w2))
        = first_request Options :: searches (history w0))).
Proof.
  intros Hlist Htoken w1.
  assert (Hrun : pages Options env (S fuel) true req w
    = (rangeMediaItems Options env true (MediaItems items);; ret None) w1).
  { subst w1. rewrite pages_step, Hlist, Htoken, !run_bind. simpl.
    destruct (rangeMediaItems Options env true (MediaItems items)
                (page_start Options req w)) as [[hm| |] w2]; try done.
    apply pages_done. }
  split; [exact Hrun|].
  intros hasMore w2 Hrange.
  assert (Hsearch : searches (history w2) = req :: searches (history w)).
  { rewrite (quiet_searches w1 w2); [done|].
    eapply preserves_run; [apply rangeMediaItems_quiet | exact Hrange]. }
  split_and!.
  - by rewrite Hrun, run_bind, Hrange.
  - exact Hsearch.
  - intros w0 -> ->. split.
    + rewrite DownloadAll_run, Hrun, run_bind, Hrange. done.
    + simpl. by rewrite Hsearch.
Qed.

Lemma page_start_paced (req : SearchMediaItemsRequest) (w : World) :
  paced (sleepTime Options) Idle Idle w (page_start Options req w).
Proof.
  exists [EvLog (LogProgress (total (stats w)) (downloaded (stats w))
                    (errors (stats w)) (totalsize (stats w)) (sleepTime Options));
          EvSleep (sleepTime Options); EvSearch req].
  split; [reflexivity|].
  rewrite pace_run_cons. cbn [pace_step]. rewrite Z.eqb_refl.
  rewrite pace_run_cons. cbn [pace_step]. rewrite Z.eqb_refl.
  reflexivity.
Qed.

Lemma pages_paced (fuel : nat) (hasMore : bool) (req : SearchMediaItemsRequest)
    (w : World) :
  paced (sleepTime Options) Idle Idle w (pages Options env fuel hasMore req w).2.
Proof.
  revert hasMore req w. induction fuel as [|fuel IH]; intros [] req w;
    try apply paced_refl.
  rewrite pages_step.
  destruct (listing_service env req) as [items|err]; [|apply page_start_paced].
  rewrite run_bind.
  pose proof (rangeMediaItems_quiet true (MediaItems items)
                (page_start Options req w)) as Hq.
  destruct (rangeMediaItems Options env true (MediaItems items)
              (page_start Options req w)) as [[hm| |] w2]; simpl in *.
  - eapply paced_trans; [apply page_start_paced|].
    eapply paced_trans; [by apply quiet_paced | apply IH].
  - eapply paced_trans; [apply page_start_paced | by apply quiet_paced].
  - eapply paced_trans; [apply page_start_paced | by apply quiet_paced].
Qed.

Lemma DownloadAll_paced (fuel : nat) (w : World) :
  paced (sleepTime Options) Idle (pace_at_end (DownloadAll Options env fuel w).1)
    w (DownloadAll Options env fuel w).2.
Proof.
  rewrite DownloadAll_run.
  pose proof (pages_paced fuel true (first_request Options) (reset_stats w)) as Hp.
  destruct (pages Options env fuel true (first_request Options) (reset_stats w))
    as [[[e|]| |] w']; simpl in *; try exact Hp.
  eapply paced_trans; [exact Hp|].
  by exists [EvLog (LogSummary (total (stats w')) (downloaded (stats w'))
                     (errors (stats w')) (totalsize (stats w')))].
Qed.

Lemma pages_first_calls (fuel : nat) (req : SearchMediaItemsRequest) (w : World) :
  exists later,
    history (pages Options env (S fuel) true req w).2
    = later ++ history (page_start Options req w).
Proof.
  rewrite pages_step.
  destruct (listing_service env req) as [items|err]; [|by exists []].
  rewrite run_bind.
  destruct (rangeMediaItems_quiet true (MediaItems items)
              (page_start Options req w)) as (n1 & H1 & _).
  destruct (rangeMediaItems Options env true (MediaItems items)
              (page_start Options req w)) as [[hm| |] w2]; simpl in *;
    try (by exists n1).
  destruct (pages_paced fuel
              (if String.eqb (NextPageToken items) EmptyString then false else hm)
              (set_PageToken req (NextPageToken items)) w2) as (c2 & H2 & _).
  exists (reverse c2 ++ n1). by rewrite H2, H1, app_assoc.
Qed.

(** C7, as amended: in every run, as far as it gets, each page fetch
    comes directly after a sleep of the throttle interval, which comes
    directly after a progress line, and each sleep is directly followed
    by its fetch: the first fetch is delayed like the others and no
    sleep comes after the last one.  A run that returns success ends
    with the summary line; a run that ends otherwise (a listing failure
    makes it return the error, or it panics) prints no summary. *)
Theorem DownloadAll_throttled (fuel : nat) (w : World) :
  let r := DownloadAll Options env fuel w in
  let th := sleepTime Options in
  exists calls : list event,
    history r.2 = reverse calls ++ history w /\
    pace_run th Idle calls = Some (pace_at_end r.1) /\
    (forall a req b, calls = a ++ EvSearch req :: b ->
       exists a' t d e s,
         a = a' ++ [EvLog (LogProgress t d e s th); EvSleep th]) /\
    (forall a d b, calls = a ++ EvSleep d :: b ->
       exists req b', b = EvSearch req :: b') /\
    (fuel <> O ->
       exists rest,
         calls = [EvLog (LogProgress 0 0 0 0 th); EvSleep th;
                  EvSearch (first_request Options)] ++ rest) /\
    (r.1 = Ret None ->
       exists a t d e s, calls = a ++ [EvLog (LogSummary t d e s)]) /\
    (r.1 <> Ret None ->
       forallb (fun e => negb (is_summary e)) calls = true).
Proof.
  intros r th. subst r th.
  destruct (DownloadAll_paced fuel w) as (calls & Hh & Hrun).
  exists calls. split_and!; try done.
  - intros a req b Hcalls. by eapply pace_search_preceded.
  - intros a d b Hcalls. eapply pace_sleep_followed; [exact Hrun | | exact Hcalls].
    destruct (DownloadAll Options env fuel w).1 as [[e|]| |]; simpl; auto.
  - intros Hfuel. destruct fuel as [|fuel]; [done|].
    destruct (pages_first_calls fuel (first_request Options) (reset_stats w))
      as (later & Hlater).
    assert (Hall : exists later',
      history (DownloadAll Options env (S fuel) w).2
      = later' ++ history (page_start Options (first_request Options) (reset_stats w))).
    { rewrite DownloadAll_run.
      destruct (pages Options env (S fuel) true (first_request Options)
                  (reset_stats w)) as [[[e|]| |] w']; simpl in *;
        try (by exists later).
      exists (EvLog (LogSummary (total (stats w')) (downloaded (stats w'))
                       (errors (stats w')) (totalsize (stats w'))) :: later).
      by rewrite Hlater. }
    destruct Hall as (later' & Hall). rewrite Hh in Hall.
    change (history (page_start Options (first_request Options) (reset_stats w)))
      with ([EvSearch (first_request Options); EvSleep (sleepTime Options);
             EvLog (LogProgress 0 0 0 0 (sleepTime Options))] ++ history w) in Hall.
    rewrite app_assoc in Hall. apply app_inv_tail in Hall.
    exists (reverse later').
    apply (f_equal reverse) in Hall. rewrite reverse_involutive in Hall.
    rewrite Hall, reverse_app. reflexivity.
  - intros Hr. rewrite Hr in Hrun. by apply pace_summed in Hrun.
  - intros Hr. eapply pace_not_summed.
    destruct (DownloadAll Options env fuel w).1 as [[e|]| |]; simpl in *; done.
Qed.

End Driver.


(** ** The package at work on the photos of [Scenario] *)

Section Runs.

Import Scenario.

#[local] Existing Instance RefLib.

(** C9 at work: the beach has a long identifier and gets its name; the
    item called abc makes the computation panic. *)
Lemma getFileNameByTime_needs_8_bytes_witness :
  time_Parse time_RFC3339 (CreationTime (MediaMetadata short)) = Ok march_2 /\
  GoString.len (Id short) < 8 /\
  getFileName opts short empty = (Panic GoString.out_of_range, empty) /\
  time_Parse time_RFC3339 (CreationTime (MediaMetadata beach)) = Ok march_2 /\
  8 <= GoString.len (Id beach) /\
  getFileNameByTime opts beach empty = (Ret (beach_path, None), empty).
Proof.
  destruct (@getFileNameByTime_needs_8_bytes RefLib opts short march_2 empty
              (eq_refl (Ok march_2))) as [_ Hshort].
  destruct (@getFileNameByTime_needs_8_bytes RefLib opts beach march_2 empty
              (eq_refl (Ok march_2))) as [Hbeach _].
  split_and!.
  - reflexivity.
  - reflexivity.
  - apply Hshort. reflexivity.
  - reflexivity.
  - by vm_compute.
  - apply Hbeach. by vm_compute.
Defined.

(** C6 as stated fails on the item called abc: its creation time
    parses, and no path is computed for it. *)
Lemma getFileName_short_id_panics :
  time_Parse time_RFC3339 (CreationTime (MediaMetadata short)) = Ok march_2 /\
  getFileName opts short empty = (Panic GoString.out_of_range, empty) /\
  (forall path w, getFileName opts short empty <> (Ret path, w)).
Proof.
  split_and!; [reflexivity | reflexivity | intros path w; discriminate].
Qed.

(** C6 at work: the path of the beach by its date, and the path of the
    undated photo by the hash of its identifier. *)
Lemma getFileName_deterministic_witness :
  time_Parse time_RFC3339 (CreationTime (MediaMetadata beach)) = Ok march_2 /\
  8 <= GoString.len (Id beach) /\
  getFileName opts beach empty = (Ret "backup/2019/March/2_beach001", empty) /\
  time_Parse time_RFC3339 (CreationTime (MediaMetadata undated))
  = Err (rfc3339.cannot_parse EmptyString) /\
  (getFileName opts undated empty).1
  = Ret "backup/4f0f/b2ad/0c54ca5b3fa4dc8d76f038ff".
Proof.
  destruct (@getFileName_deterministic RefLib opts beach empty) as (Hdate & _).
  destruct (@getFileName_deterministic RefLib opts undated empty) as (_ & Hhash & _).
  split_and!.
  - reflexivity.
  - by vm_compute.
  - apply (Hdate march_2); [reflexivity | by vm_compute].
  - reflexivity.
  - rewrite (Hhash (rfc3339.cannot_parse EmptyString) (eq_refl (Err _))). reflexivity.
Defined.

(** C1 at work: the beach is on disk in full; fetching it again returns
    success and touches no file and no counter, and the body of the
    response stays open. *)
Lemma createImage_already_downloaded_witness :
  content_server env (payloadUrl beach) = Ok (3, beach_bytes, None) /\
  (stat env beach_on_disk beach_png).1 = Some {| Size := 3; IsDir := false |} /\
  (createImage env beach beach_png beach_on_disk).1 = Ret None /\
  fs (createImage env beach beach_png beach_on_disk).2 = fs beach_on_disk /\
  stats (createImage env beach beach_png beach_on_disk).2 = stats beach_on_disk /\
  open_bodies (createImage env beach beach_png beach_on_disk).2
  = ["https://lh3.example/beach=d"] /\
  closed_bodies (history (createImage env beach beach_png beach_on_disk).2) = [].
Proof.
  assert (Hget : content_server env (payloadUrl beach) = Ok (3, beach_bytes, None))
    by reflexivity.
  assert (Hstat : (stat env beach_on_disk beach_png).1
                  = Some {| Size := 3; IsDir := false |}) by reflexivity.
  destruct (createImage_already_downloaded env beach beach_png beach_on_disk
              3 beach_bytes None _ Hget Hstat eq_refl)
    as (Hrun & Hfs & _ & _ & Hstats & Hopen & Hclosed).
  rewrite Hrun.
  split_and!;
    [ exact Hget | exact Hstat | reflexivity | exact Hfs | exact Hstats
    | exact Hopen | exact Hclosed ].
Defined.

(** C4 as stated fails when the payload file may not be opened for
    writing: the beach is on disk one byte short and read-only; the
    size differs from the one announced, but the file is neither
    truncated nor overwritten, and the error is returned. *)
Lemma createImage_read_only_keeps_file :
  content_server env_read_only (payloadUrl beach) = Ok (3, beach_bytes, None) /\
  (stat env_read_only beach_cut_short beach_png).1
  = Some {| Size := 2; IsDir := false |} /\
  (createImage env_read_only beach beach_png beach_cut_short).1
  = Ret (Some (PathError "open" beach_png EACCES)) /\
  fs (createImage env_read_only beach beach_png beach_cut_short).2 !! beach_png
  = Some (File [x01; x02]).
Proof. split_and!; reflexivity. Qed.

(** C4 at work: the beach is on disk one byte short; fetching it again
    replaces the file by the three bytes that arrive and counts one
    download of three bytes. *)
Lemma createImage_size_changed_witness :
  content_server env (payloadUrl beach) = Ok (3, beach_bytes, None) /\
  (stat env beach_cut_short beach_png).1 = Some {| Size := 2; IsDir := false |} /\
  2 <> 3 /\
  open_fault env beach_png = None /\
  (createImage env beach beach_png beach_cut_short).1 = Ret None /\
  fs (createImage env beach beach_png beach_cut_short).2 !! beach_png
  = Some (File beach_bytes) /\
  downloaded (stats (createImage env beach beach_png beach_cut_short).2) = 1 /\
  totalsize (stats (createImage env beach beach_png beach_cut_short).2) = 3.
Proof.
  assert (Hget : content_server env (payloadUrl beach) = Ok (3, beach_bytes, None))
    by reflexivity.
  assert (Hstat : (stat env beach_cut_short beach_png).1
                  = Some {| Size := 2; IsDir := false |}) by reflexivity.
  assert (Hsize : Size {| Size := 2; IsDir := false |} <> 3) by (simpl; lia).
  destruct (createImage_size_changed env beach beach_png beach_cut_short
              3 beach_bytes None _ Hget Hstat Hsize) as [Hgranted _].
  destruct (Hgranted eq_refl eq_refl) as (Hr & Hfs & _ & _ & _ & Hcount & _).
  destruct (Hcount eq_refl) as (Hd & Ht & _).
  split_and!;
    [ exact Hget | exact Hstat | lia | reflexivity | exact Hr
    | by rewrite Hfs, lookup_insert_eq | by rewrite Hd | by rewrite Ht ].
Defined.


(** C10 at work: the sidecar of the beach is a link that loops, so
    [os.Stat] fails with an error that is not not-exist; nothing is
    written for it, the payload is fetched all the same, and the item
    counts as persisted without an error. *)
Lemma createJSON_unreadable_sidecar_witness :
  getFileName opts beach empty = (Ret beach_path, empty) /\
  stat env_looping empty (jsonName beach_path)
  = (None, Some (PathError "stat" beach_json ELOOP)) /\
  os_IsNotExist (Some (PathError "stat" beach_json ELOOP)) = false /\
  createJSON env_looping beach beach_json empty = (Ret None, empty) /\
  (persistCounted opts env_looping beach empty).1 = Ret tt /\
  errors (stats (persistCounted opts env_looping beach empty).2) = 0 /\
  fs (persistCounted opts env_looping beach empty).2 !! beach_json = None.
Proof.
  assert (Hname : getFileName opts beach empty = (Ret beach_path, empty))
    by reflexivity.
  assert (Hstat : stat env_looping empty (jsonName beach_path)
                  = (None, Some (PathError "stat" beach_json ELOOP)))
    by reflexivity.
  assert (Hloop : os_IsNotExist (Some (PathError "stat" beach_json ELOOP)) = false)
    by reflexivity.
  destruct (@createJSON_unreadable_sidecar RefLib opts env_looping beach
              empty empty beach_path _ Hname Hstat Hloop)
    as (Hskip & _ & _ & Hcounted).
  assert (Himage : createImage env_looping beach (imageName beach beach_path) empty
                   = (Ret None,
                      (createImage env_looping beach beach_png empty).2))
    by (vm_compute; reflexivity).
  destruct (Hcounted _ Himage) as (Hrun & Herrors).
  split_and!.
  - exact Hname.
  - exact Hstat.
  - reflexivity.
  - exact Hskip.
  - by rewrite Hrun.
  - rewrite Hrun. exact Herrors.
  - rewrite Hrun. reflexivity.
Defined.

(** C2 at work: a cap of two and a first page of three photos. *)
Lemma DownloadAll_cap_witness :
  0 <= MaxItems opts /\
  MaxItems opts < Z.of_nat (length [beach; hills; creek]) /\
  Z.of_nat (length [beach; hills; creek]) <= GoInt.max_int /\
  listing_service env (first_request opts)
  = Ok {| MediaItems := [beach; hills; creek]; NextPageToken := "next" |} /\
  (DownloadAll opts env 1 empty).1 = Ret None /\
  stats (DownloadAll opts env 1 empty).2
  = {| total := 3; errors := 0; totalsize := 5; downloaded := 2 |} /\
  searches (history (DownloadAll opts env 1 empty).2) = [first_request opts] /\
  fetches (history (DownloadAll opts env 1 empty).2)
  = ["https://lh3.example/hills=d"; "https://lh3.example/beach=d"].
Proof.
  assert (H0 : 0 <= MaxItems opts) by (simpl; lia).
  assert (Hlen : MaxItems opts < Z.of_nat (length [beach; hills; creek]))
    by (simpl; lia).
  assert (Hmax : Z.of_nat (length [beach; hills; creek]) <= GoInt.max_int)
    by (by vm_compute).
  assert (Hlist : listing_service env (first_request opts)
                  = Ok {| MediaItems := [beach; hills; creek];
                          NextPageToken := "next" |}) by reflexivity.
  destruct (@DownloadAll_cap RefLib opts env 0 empty [beach; hills; creek] "next"
              H0 Hlen Hmax Hlist) as (_ & Hcap).
  assert (Heach : persistEach opts env
                    (take (Z.to_nat (MaxItems opts)) [beach; hills; creek])
                    (page_start opts (first_request opts) (reset_stats empty))
                  = (Ret tt,
                     (persistEach opts env [beach; hills]
                        (page_start opts (first_request opts)
                           (reset_stats empty))).2))
    by (vm_compute; reflexivity).
  destruct (Hcap _ Heach) as (Hrun & Htotal & _).
  rewrite Hrun.
  split_and!;
    [ exact H0 | exact Hlen | exact Hmax | exact Hlist | reflexivity
    | reflexivity | reflexivity | reflexivity ].
Defined.

(** C3 at work: the creek cannot be fetched, which makes one error and
    does not stop the page; then the second page cannot be listed,
    which ends the run with that error and leaves the beach and the
    hills on disk and counted. *)
Lemma failures_item_and_listing_witness :
  (rangeMediaItems roomy env true [creek] empty).1 = Ret true /\
  errors (stats (rangeMediaItems roomy env true [creek] empty).2) = 1 /\
  (DownloadAll roomy env 2 empty).1 = Ret (Some backend_error) /\
  stats (DownloadAll roomy env 2 empty).2
  = {| total := 3; errors := 1; totalsize := 5; downloaded := 2 |} /\
  fs (DownloadAll roomy env 2 empty).2 !! beach_png = Some (File beach_bytes) /\
  existsb is_summary (history (DownloadAll roomy env 2 empty).2) = false.
Proof.
  destruct (@failures_item_and_listing RefLib roomy env)
    as (Hitem & _ & Hrun & Hpage).
  assert (Hroom : total (stats (with_stats incr_total empty)) <= MaxItems roomy)
    by (by vm_compute).
  assert (Hcreek : downloadItem roomy env creek (with_stats incr_total empty)
                   = (Ret (Some (ErrorString "Get: connection refused")),
                      (downloadItem roomy env creek
                         (with_stats incr_total empty)).2))
    by (vm_compute; reflexivity).
  destruct (Hitem creek [] empty _ _ Hroom Hcreek) as (Hgoes_on & Herrors & _).
  assert (Hlist : listing_service env (first_request roomy)
                  = Ok {| MediaItems := [beach; hills; creek];
                          NextPageToken := "next" |}) by reflexivity.
  assert (Hrange : rangeMediaItems roomy env true [beach; hills; creek]
                     (page_start roomy (first_request roomy) (reset_stats empty))
                   = (Ret true,
                      (rangeMediaItems roomy env true [beach; hills; creek]
                         (page_start roomy (first_request roomy)
                            (reset_stats empty))).2))
    by (vm_compute; reflexivity).
  assert (Hnext : listing_service env (set_PageToken (first_request roomy) "next")
                  = Err backend_error) by reflexivity.
  destruct (Hpage 0%nat (first_request roomy) (reset_stats empty)
              {| MediaItems := [beach; hills; creek]; NextPageToken := "next" |}
              _ backend_error Hlist ltac:(done) Hrange Hnext)
    as (Hpages & _).
  rewrite (Hrun _ _ _ _ Hpages). rewrite Hgoes_on.
  split_and!; reflexivity.
Defined.

(** C7 as stated fails on a run whose first listing fails: the run
    ends there, and no summary line is printed. *)
Lemma DownloadAll_aborted_without_summary :
  listing_service (env_with down) (first_request opts) = Err backend_error /\
  (DownloadAll opts (env_with down) 3 empty).1 = Ret (Some backend_error) /\
  reverse (history (DownloadAll opts (env_with down) 3 empty).2)
  = [EvLog (LogProgress 0 0 0 0 5000000000); EvSleep 5000000000;
     EvSearch (first_request opts)] /\
  existsb is_summary (history (DownloadAll opts (env_with down) 3 empty).2) = false.
Proof. split_and!; reflexivity. Qed.

(** C7 at work: the run over the three photos under a cap of two. *)
Lemma DownloadAll_throttled_witness :
  exists calls,
    history (DownloadAll opts env 1 empty).2 = reverse calls ++ [] /\
    (exists rest, calls = [EvLog (LogProgress 0 0 0 0 5000000000);
                           EvSleep 5000000000;
                           EvSearch (first_request opts)] ++ rest) /\
    (exists a, calls = a ++ [EvLog (LogSummary 3 2 0 5)]).
Proof.
  destruct (@DownloadAll_throttled RefLib opts env 1 empty)
    as (calls & Hh & _ & _ & _ & Hfirst & Hsum & _).
  exists calls. split_and!.
  - exact Hh.
  - by apply Hfirst.
  - destruct (Hsum eq_refl) as (a & t & d & e & s & Hcalls).
    exists a. rewrite Hcalls. 
    assert (Hlast : last (reverse (history (DownloadAll opts env 1 empty).2))
                    = Some (EvLog (LogSummary 3 2 0 5))) by reflexivity.
    rewrite Hh, app_nil_r, reverse_involutive, Hcalls, last_snoc in Hlast.
    by inversion Hlast.
Defined.

(** C8 at work: one page with the beach and no token. *)
Lemma empty_token_ends_the_run_witness :
  listing_service (env_with single) (first_request opts)
  = Ok {| MediaItems := [beach]; NextPageToken := EmptyString |} /\
  (DownloadAll opts (env_with single) 1 empty).1 = Ret None /\
  searches (history (DownloadAll opts (env_with single) 1 empty).2)
  = [first_request opts] /\
  stats (DownloadAll opts (env_with single) 1 empty).2
  = {| total := 1; errors := 0; totalsize := 3; downloaded := 1 |}.
Proof.
  assert (Hlist : listing_service (env_with single) (first_request opts)
                  = Ok {| MediaItems := [beach]; NextPageToken := EmptyString |})
    by reflexivity.
  destruct (@empty_token_ends_the_run RefLib opts (env_with single) 0
              (first_request opts) (reset_stats empty) _ Hlist eq_refl)
    as (_ & Hends).
  assert (Hrange : rangeMediaItems opts (env_with single) true [beach]
                     (page_start opts (first_request opts) (reset_stats empty))
                   = (Ret true,
                      (rangeMediaItems opts (env_with single) true [beach]
                         (page_start opts (first_request opts)
                            (reset_stats empty))).2))
    by (vm_compute; reflexivity).
  destruct (Hends _ _ Hrange) as (_ & _ & Hrun).
  destruct (Hrun empty eq_refl eq_refl) as (Hall & Hsearch).
  rewrite Hall. split_and!; [exact Hlist | reflexivity | exact Hsearch | reflexivity].
Defined.

End Runs.


(** * Further properties of the package *)

(** ** Naming strategy: the hash path *)

Lemma take_drop_string (n : nat) (s : string) :
  GoString.take n s +:+ GoString.drop n s = s.
Proof.
  revert s. induction n as [|n IH]; intros [|c s]; simpl; try reflexivity.
  change (String c (GoString.take n s +:+ GoString.drop n s) = String c s).
  by rewrite IH.
Qed.

Lemma drop_drop_string (n m : nat) (s : string) :
  GoString.drop n (GoString.drop m s) = GoString.drop (m + n) s.
Proof.
  revert s. induction m as [|m IH]; intros s; simpl; [done|].
  destruct s as [|c s]; [by destruct n | apply IH].
Qed.

Section HashPath.

Context {L : GoLib} (Options : OptionsT).

(** X1: The fallback never panics, whatever the identifier (the empty one
    included): the digest has 32 hex digits, which the three slices
    [hash[:4]], [hash[4:8]] and [hash[8:]] cut into components of 4, 4
    and 24 digits; put together again the components are the whole
    digest, so no digit of it is lost in the path. *)
Theorem getFileNameByHash_components (item : MediaItem) (w : World) :
  exists a b c : string,
    getFileNameByHash Options item w
    = (Ret (filepath_Join [BackupFolder Options; a; b; c]), w) /\
    String.length a = 4%nat /\ String.length b = 4%nat /\
    String.length c = 24%nat /\
    a +:+ b +:+ c
    = hex_EncodeToString
        (vec_to_list (md5_Sum (String.list_byte_of_string (Id item)))).
Proof.
  set (hash := hex_EncodeToString
                 (vec_to_list (md5_Sum (String.list_byte_of_string (Id item))))).
  assert (Hlen : String.length hash = 32%nat).
  { pose proof (len_md5_hex (String.list_byte_of_string (Id item))) as H.
    unfold GoString.len in H. fold hash in H. lia. }
  exists (GoString.take 4 hash), (GoString.take 4 (GoString.drop 4 hash)),
         (GoString.drop 8 hash).
  split_and!.
  - apply getFileNameByHash_total.
  - rewrite length_take_string. lia.
  - rewrite length_take_string, length_drop_string. lia.
  - rewrite length_drop_string. lia.
  - change (GoString.drop 8 hash) with (GoString.drop (4 + 4) hash).
    rewrite <- (drop_drop_string 4 4 hash).
    by rewrite take_drop_string, take_drop_string.
Qed.

End HashPath.

(** ** Item persister: what it writes, and what it leaves *)


Section PersisterEffects.

Context {L : GoLib} (Options : OptionsT) (env : Env).



Lemma stat_present (w : World) (name : string) :
  stat_fault env name = None -> fs w !! name <> None ->
  exists fi, stat env w name = (Some fi, None).
Proof.
  intros Hf Hp. unfold stat. rewrite Hf.
  destruct (fs w !! name) as [[data|]|]; [by eexists .. | done].
Qed.


Lemma stat_refused (w : World) (name : string) (e : errno) :
  stat_fault env name = Some e ->
  stat env w name = (None, Some (PathError "stat" name e)).
Proof. intros Hf. unfold stat. by rewrite Hf. Qed.



(** *** The payload *)

Lemma writeImage_is_dir (fileName : string) (response : Response) (w : World) :
  open_fault env fileName = None ->
  fs w !! fileName = Some Dir ->
  writeImage env fileName response w
  = (Ret (Some (PathError "open" fileName EISDIR)), record (EvCreate fileName) w).
Proof. intros Ho Hd. unfold writeImage, os_Create. run. by rewrite Ho, Hd. Qed.

Lemma createImage_unanswered (item : MediaItem) (fileName : string) (w : World) e :
  content_server env (payloadUrl item) = Err e ->
  createImage env item fileName w
  = (Ret (Some e), record (EvGet (payloadUrl item)) w).
Proof. intros Hget. unfold createImage, http_Get. run. by rewrite Hget. Qed.

Lemma createImage_skip (item : MediaItem) (fileName : string) (w : World)
    cl bytes fin fi :
  content_server env (payloadUrl item) = Ok (cl, bytes, fin) ->
  (stat env w fileName).1 = Some fi ->
  Size fi = cl ->
  createImage env item fileName w
  = (Ret None, record (EvLog LogAlreadyDownloaded) (answered (payloadUrl item) w)).
Proof.
  intros Hget Hfi Hsize. rewrite (createImage_answered _ _ _ _ _ _ _ Hget).
  cbv zeta. rewrite Hfi, <- Hsize, Z.eqb_refl. reflexivity.
Qed.

Lemma writeImage_effect (url fileName : string) (l : logline) (w : World)
    cl bytes fin :
  let response :=
    {| ContentLength := cl;
       Body := {| source := url; arriving := bytes; ending := fin |} |} in
  let r := writeImage env fileName response (record (EvLog l) (answered url w)) in
  match open_fault env fileName, fs w !! fileName with
  | Some _, _ | None, Some Dir => left_alone url w r
  | None, _ => written url fileName bytes fin w r
  end.
Proof.
  intros response r.
  destruct (open_fault env fileName) as [e|] eqn:Ho.
  - subst r. rewrite (writeImage_refused env fileName response (record (EvLog l) (answered url w)) e Ho).
    unfold left_alone; simpl. split_and!; try done. by eexists.
  - destruct (fs w !! fileName) as [[old|]|] eqn:Hf.
    + destruct (writeImage_granted env fileName response
                  (record (EvLog l) (answered url w)) old Ho (or_introl Hf))
        as (H1 & H2 & H3 & H4 & H5 & H6 & H7).
      subst r. unfold written. split_and!; try done.
      by rewrite H4; simpl; rewrite String.eqb_refl.
    + subst r. rewrite (writeImage_is_dir fileName response (record (EvLog l) (answered url w)) Ho Hf).
      unfold left_alone; simpl. split_and!; try done. by eexists.
    + destruct (writeImage_granted env fileName response
                  (record (EvLog l) (answered url w)) [] Ho (or_intror Hf))
        as (H1 & H2 & H3 & H4 & H5 & H6 & H7).
      subst r. unfold written. split_and!; try done.
      by rewrite H4; simpl; rewrite String.eqb_refl.
Qed.

(** Every way [createImage] can go once [http.Get] has answered. *)
Lemma createImage_effect (item : MediaItem) (fileName : string) (w : World)
    cl bytes fin :
  content_server env (payloadUrl item) = Ok (cl, bytes, fin) ->
  let r := createImage env item fileName w in
  written (payloadUrl item) fileName bytes fin w r \/
  left_alone (payloadUrl item) w r.
Proof.
  intros Hget r. subst r. rewrite (createImage_answered _ _ _ _ _ _ _ Hget).
  cbv zeta.
  pose proof (writeImage_effect (payloadUrl item) fileName LogSizeChanged w
                cl bytes fin) as Hchanged.
  pose proof (writeImage_effect (payloadUrl item) fileName LogNotYetDownloaded w
                cl bytes fin) as Hnew.
  cbv zeta in Hchanged, Hnew.
  assert (Halone : forall l err,
            left_alone (payloadUrl item) w
              (Ret err, record (EvLog l) (answered (payloadUrl item) w))).
  { intros l err. unfold left_alone; simpl. split_and!; try done. by eexists. }
  destruct (stat env w fileName) as [[fi|] err]; simpl.
  - destruct (cl =? Size fi).
    + right. apply Halone.
    + change ((log_Print LogSizeChanged;; writeImage env fileName _) _)
        with (writeImage env fileName
                {| ContentLength := cl;
                   Body := {| source := payloadUrl item; arriving := bytes;
                              ending := fin |} |}
                (record (EvLog LogSizeChanged) (answered (payloadUrl item) w))).
      destruct (open_fault env fileName); [by right|].
      destruct (fs w !! fileName) as [[old|]|]; [by left | by right | by left].
  - destruct (bool_decide (err <> None) && negb (os_IsNotExist err)).
    + right. apply Halone.
    + change ((log_Print LogNotYetDownloaded;; writeImage env fileName _) _)
        with (writeImage env fileName
                {| ContentLength := cl;
                   Body := {| source := payloadUrl item; arriving := bytes;
                              ending := fin |} |}
                (record (EvLog LogNotYetDownloaded) (answered (payloadUrl item) w))).
      destruct (open_fault env fileName); [by right|].
      destruct (fs w !! fileName) as [[old|]|]; [by left | by right | by left].
Qed.

Lemma writeImage_fetches (fileName : string) (response : Response) :
  preserves (keeps (fun w => fetches (history w))) (writeImage env fileName response).
Proof. unfold_payload. preserve_with same. Qed.

Lemma createImage_downloads (item : MediaItem) (fileName : string) (w : World)
    cl bytes fin :
  content_server env (payloadUrl item) = Ok (cl, bytes, fin) ->
  stat_fault env fileName = None ->
  open_fault env fileName = None ->
  fs w !! fileName = None \/
    (exists old, fs w !! fileName = Some (File old) /\ Z.of_nat (length old) <> cl) ->
  written (payloadUrl item) fileName bytes fin w (createImage env item fileName w).
Proof.
  intros Hget Hs Ho Hfile. rewrite (createImage_answered _ _ _ _ _ _ _ Hget).
  cbv zeta. unfold stat. rewrite Hs.
  destruct Hfile as [Hf | (old & Hf & Hsize)]; rewrite Hf; simpl.
  - pose proof (writeImage_effect (payloadUrl item) fileName LogNotYetDownloaded w
                  cl bytes fin) as Hw.
    cbv zeta in Hw. by rewrite Ho, Hf in Hw.
  - rewrite (proj2 (Z.eqb_neq cl (Z.of_nat (length old)))) by done.
    pose proof (writeImage_effect (payloadUrl item) fileName LogSizeChanged w
                  cl bytes fin) as Hw.
    cbv zeta in Hw. by rewrite Ho, Hf in Hw.
Qed.


Lemma createImage_counts (item : MediaItem) (fileName : string) (w : World) :
  let r := createImage env item fileName w in
  stats r.2 = stats w \/
  (r.1 = Ret None /\
   total (stats r.2) = total (stats w) /\
   errors (stats r.2) = errors (stats w) /\
   downloaded (stats r.2) = GoInt.add (downloaded (stats w)) 1).
Proof.
  intros r. subst r.
  destruct (content_server env (payloadUrl item)) as [[[cl bytes] fin]|e] eqn:Hget.
  - destruct (createImage_effect item fileName w cl bytes fin Hget)
      as [(Hr & _ & _ & _ & _ & _ & Hst) | (_ & _ & Hst & _)]; [|by left].
    destruct fin; [by left | right]. rewrite Hst. by split_and!.
  - left. by rewrite (createImage_unanswered _ _ _ e).
Qed.

(** X3: [createImage] makes exactly one request, whatever comes of it, and
    it is for the video variant [=dv] of the base URL when the item is
    a video and for the variant [=d] when it is not. *)
Theorem createImage_one_request (item : MediaItem) (fileName : string) (w : World) :
  fetches (history (createImage env item fileName w).2)
  = payloadUrl item :: fetches (history w) /\
  payloadUrl item
  = BaseUrl item +:+ match Video (MediaMetadata item) with
                     | Some _ => "=dv"
                     | None => "=d"
                     end.
Proof.
  split; [|by unfold payloadUrl; destruct (Video (MediaMetadata item))].
  destruct (content_server env (payloadUrl item)) as [[[cl bytes] fin]|e] eqn:Hget.
  - rewrite (createImage_answered _ _ _ _ _ _ _ Hget). cbv zeta.
    set (response := {| ContentLength := cl; Body := _ |}).
    pose proof (writeImage_fetches fileName response) as Hw.
    destruct (stat env w fileName) as [[fi|] err]; simpl.
    + destruct (cl =? Size fi); [done|].
      exact (Hw (record (EvLog LogSizeChanged) (answered (payloadUrl item) w))).
    + destruct (bool_decide (err <> None) && negb (os_IsNotExist err)); [done|].
      exact (Hw (record (EvLog LogNotYetDownloaded) (answered (payloadUrl item) w))).
  - by rewrite (createImage_unanswered _ _ _ e).
Qed.

(** X4: When [os.Stat] on the payload path fails with an error other than
    not-exist, [createImage] returns that error: the payload is not
    written, no counter moves, and the body of the response, which had
    been fetched before the path was looked at, is left open. *)
Theorem createImage_stat_refused (item : MediaItem) (fileName : string)
    (w : World) (e : errno) cl bytes fin :
  content_server env (payloadUrl item) = Ok (cl, bytes, fin) ->
  stat_fault env fileName = Some e ->
  e <> ENOENT ->
  createImage env item fileName w
  = (Ret (Some (PathError "stat" fileName e)),
     record (EvLog LogStatFailed) (answered (payloadUrl item) w)).
Proof.
  intros Hget Hs He. rewrite (createImage_answered _ _ _ _ _ _ _ Hget).
  cbv zeta. rewrite (stat_refused w fileName e Hs).
  cbn [fst snd]. rewrite bool_decide_true by done. by destruct e.
Qed.

(** X5: Fetching a payload twice.  With a server that announces the length
    of what it sends and a path that can be looked at and written, the
    first call returns success with a file of the announced length at
    the path (written now, if it was not there or had another length);
    the second call finds it, creates nothing, changes no file and moves
    no counter: over the two calls the item is counted as downloaded at
    most once. *)
Theorem createImage_twice (item : MediaItem) (fileName : string) (w : World)
    (bytes : list byte) :
  content_server env (payloadUrl item) = Ok (Z.of_nat (length bytes), bytes, None) ->
  stat_fault env fileName = None ->
  open_fault env fileName = None ->
  fs w !! fileName <> Some Dir ->
  let r1 := createImage env item fileName w in
  let r2 := createImage env item fileName r1.2 in
  r1.1 = Ret None /\
  (exists data, fs r1.2 !! fileName = Some (File data) /\ length data = length bytes) /\
  (fs w !! fileName = None ->
     fs r1.2 = <[fileName := File bytes]> (fs w) /\
     downloaded (stats r1.2) = GoInt.add (downloaded (stats w)) 1 /\
     totalsize (stats r1.2)
     = GoInt.uadd (totalsize (stats w)) (Z.of_nat (length bytes))) /\
  r2.1 = Ret None /\
  fs r2.2 = fs r1.2 /\
  stats r2.2 = stats r1.2 /\
  creations (history r2.2) = creations (history r1.2).
Proof.
  intros Hget Hs Ho Hdir r1 r2.
  assert (Hfirst : r1.1 = Ret None /\
            (exists data, fs r1.2 !! fileName = Some (File data) /\
                          length data = length bytes) /\
            (fs w !! fileName = None ->
               fs r1.2 = <[fileName := File bytes]> (fs w) /\
               downloaded (stats r1.2) = GoInt.add (downloaded (stats w)) 1 /\
               totalsize (stats r1.2)
               = GoInt.uadd (totalsize (stats w)) (Z.of_nat (length bytes)))).
  { destruct (fs w !! fileName) as [[old|]|] eqn:Hf; [| done |].
    - destruct (decide (length old = length bytes)) as [Hlen|Hlen].
      + subst r1.
        rewrite (createImage_skip item fileName w _ bytes None
                   {| Size := Z.of_nat (length old); IsDir := false |} Hget).
        * simpl. split_and!; [done | by exists old | done].
        * unfold stat. by rewrite Hs, Hf.
        * simpl. by rewrite Hlen.
      + destruct (createImage_downloads item fileName w _ bytes None Hget Hs Ho)
          as (H1 & H2 & _).
        { right. exists old. split; [done | lia]. }
        fold r1 in H1, H2. split_and!; [done | | done].
        exists bytes. by rewrite H2, lookup_insert_eq.
    - destruct (createImage_downloads item fileName w _ bytes None Hget Hs Ho)
        as (H1 & H2 & _ & _ & _ & _ & H7); [by left|].
      fold r1 in H1, H2, H7. split_and!; [done | |].
      + exists bytes. by rewrite H2, lookup_insert_eq.
      + intros _. rewrite H7. by split_and!. }
  destruct Hfirst as (Hr1 & (data & Hdata & Hlen) & Hnew).
  split_and!; [done | by exists data | done | | | |]; subst r2;
    rewrite (createImage_skip item fileName r1.2 _ bytes None
               {| Size := Z.of_nat (length data); IsDir := false |} Hget);
    try done; try (unfold stat; by rewrite Hs, Hdata); try (simpl; by rewrite Hlen).
Qed.


(** *** One item *)

Lemma downloadItem_counts (item : MediaItem) (w : World) :
  let r := downloadItem Options env item w in
  stats r.2 = stats w \/
  (r.1 = Ret None /\
   total (stats r.2) = total (stats w) /\
   errors (stats r.2) = errors (stats w) /\
   downloaded (stats r.2) = GoInt.add (downloaded (stats w)) 1).
Proof.
  intros r. subst r. unfold downloadItem. rewrite run_bind.
  destruct (getFileName_frame Options item) as (_ & Kn & _).
  specialize (Kn w). unfold keeps in Kn.
  destruct (getFileName Options item w) as [[name| |] w1]; simpl in Kn;
    [| by left..].
  rewrite run_bind.
  destruct (createJSON_frame env item (jsonName name)) as (Kj & _).
  specialize (Kj w1). unfold keeps in Kj.
  destruct (createJSON env item (jsonName name) w1) as [[[e|]| |] w2];
    simpl in Kj; [left; simpl; congruence | | left; simpl; congruence..].
  rewrite <- Kn, <- Kj. apply createImage_counts.
Qed.


(** X8: A request for the payload that fails is the failure of the item:
    the error is returned and counted once by the loop; by then the
    sidecar step has been gone through and what it did stays, no payload
    file is created and no body is open. *)
Theorem downloadItem_transport_failure (item : MediaItem) (w w1 w2 : World)
    (name : string) (e : error) :
  getFileName Options item w = (Ret name, w1) ->
  createJSON env item (jsonName name) w1 = (Ret None, w2) ->
  content_server env (payloadUrl item) = Err e ->
  let w3 := record (EvGet (payloadUrl item)) w2 in
  downloadItem Options env item w = (Ret (Some e), w3) /\
  persistCounted Options env item w
  = (Ret tt, with_stats incr_errors (record (EvLog (LogFailed (Id item) e)) w3)) /\
  fs w3 = fs w2 /\
  creations (history w3) = creations (history w) /\
  open_bodies w3 = open_bodies w /\
  stats w3 = stats w.
Proof.
  intros Hname Hjson Hget w3.
  assert (Hitem : downloadItem Options env item w = (Ret (Some e), w3)).
  { rewrite (downloadItem_run _ _ _ _ _ _ Hname), Hjson.
    by apply createImage_unanswered. }
  destruct (getFileName_frame Options item) as (_ & Kns & Knb & _ & Knc & _).
  destruct (createJSON_frame env item (jsonName name)) as (Kjs & Kjb & _ & Kjc).
  pose proof (preserves_run _ _ _ _ _ Kns Hname) as H1.
  pose proof (preserves_run _ _ _ _ _ Knb Hname) as H2.
  pose proof (preserves_run _ _ _ _ _ Knc Hname) as H3.
  pose proof (preserves_run _ _ _ _ _ Kjs Hjson) as H4.
  pose proof (preserves_run _ _ _ _ _ Kjb Hjson) as H5.
  pose proof (preserves_run _ _ _ _ _ Kjc Hjson) as H6.
  unfold keeps in *.
  split_and!; [done | by apply persistCounted_failure | done | | |]; subst w3;
    simpl; congruence.
Qed.

(** X9: The payload path is the name with the first extension of the media
    type, the sidecar path the name with [.json]: for a media type whose
    first extension is [.json] the two are one path.  Then a sidecar
    that is there counts as the payload file, and when its size is not
    the one the response announces it is replaced by the payload. *)
Theorem downloadItem_json_media_type (item : MediaItem) (w w1 : World)
    (name : string) (exts : list string) (err : option error) :
  getFileName Options item w = (Ret name, w1) ->
  mime_ExtensionsByType (MimeType item) = (".json" :: exts, err) ->
  imageName item name = jsonName name /\
  (forall old cl bytes,
     stat_fault env (jsonName name) = None ->
     open_fault env (jsonName name) = None ->
     fs w1 !! jsonName name = Some (File old) ->
     content_server env (payloadUrl item) = Ok (cl, bytes, None) ->
     Z.of_nat (length old) <> cl ->
     let r := downloadItem Options env item w in
     r.1 = Ret None /\
     fs r.2 !! jsonName name = Some (File bytes) /\
     writes (history r.2) = writes (history w)).
Proof.
  intros Hname Hmime.
  assert (Hsame : imageName item name = jsonName name).
  { unfold imageName, jsonName. by rewrite Hmime. }
  split; [done|].
  intros old cl bytes Hs Ho Hf Hget Hsize r. subst r.
  rewrite (downloadItem_run _ _ _ _ _ _ Hname).
  rewrite createJSON_skip
    by (destruct (stat_present w1 (jsonName name) Hs) as [fi ->];
        [by rewrite Hf | done]).
  rewrite Hsame.
  destruct (createImage_downloads item (jsonName name) w1 cl bytes None Hget Hs Ho)
    as (H1 & H2 & _); [right; by exists old|].
  split_and!; [done | by rewrite H2, lookup_insert_eq |].
  destruct (createImage_frame env item (jsonName name)) as (Kw & _).
  rewrite (Kw w1).
  destruct (getFileName_frame Options item) as (_ & _ & _ & _ & _ & Kn).
  exact (preserves_run _ _ _ _ _ Kn Hname).
Qed.

End PersisterEffects.

(** X10: A download cut short, and the next attempt.  When the stream ends
    with an error, [createImage] returns the error and counts nothing,
    and the file stays on disk with the bytes that had arrived.  The
    next call, with a server that now sends all it announces, finds a
    file of another size than announced, replaces it, and counts the
    download. *)
Theorem createImage_recovers_partial (env env' : Env) (item : MediaItem)
    (fileName : string) (w : World) (part full : list byte) (err : error) :
  content_server env (payloadUrl item)
  = Ok (Z.of_nat (length full), part, Some err) ->
  content_server env' (payloadUrl item)
  = Ok (Z.of_nat (length full), full, None) ->
  length part <> length full ->
  stat_fault env fileName = None -> open_fault env fileName = None ->
  stat_fault env' fileName = None -> open_fault env' fileName = None ->
  fs w !! fileName = None ->
  let r1 := createImage env item fileName w in
  let r2 := createImage env' item fileName r1.2 in
  r1.1 = Ret (Some err) /\
  fs r1.2 = <[fileName := File part]> (fs w) /\
  stats r1.2 = stats w /\
  r2.1 = Ret None /\
  fs r2.2 = <[fileName := File full]> (fs w) /\
  downloaded (stats r2.2) = GoInt.add (downloaded (stats w)) 1 /\
  totalsize (stats r2.2)
  = GoInt.uadd (totalsize (stats w)) (Z.of_nat (length full)).
Proof.
  intros Hget Hget' Hlen Hs Ho Hs' Ho' Hf r1 r2.
  destruct (createImage_downloads env item fileName w _ part (Some err) Hget Hs Ho)
    as (H1 & H2 & _ & _ & _ & _ & H7); [by left|].
  fold r1 in H1, H2, H7.
  destruct (createImage_downloads env' item fileName r1.2 _ full None Hget' Hs' Ho')
    as (K1 & K2 & _ & _ & _ & _ & K7).
  { right. exists part. rewrite H2, lookup_insert_eq. split; [done | lia]. }
  fold r2 in K1, K2, K7.
  split_and!; try done.
  - by rewrite K2, H2, insert_insert_eq.
  - by rewrite K7, H7.
  - by rewrite K7, H7.
Qed.

(** ** Pagination driver: pages, the cap and the counters *)

Lemma wrap_int_range (z : Z) : GoInt.in_int (GoInt.wrap_int z).
Proof.
  unfold GoInt.in_int, GoInt.wrap_int, GoInt.min_int, GoInt.max_int.
  pose proof (Z.mod_pos_bound (z + 2 ^ 63) (2 ^ 64)). lia.
Qed.

Section DriverRuns.

Context {L : GoLib} (Options : OptionsT) (env : Env).

(** With room under the cap for all of [pre], the range loop persists
    every item of [pre] and goes on with what follows. *)
Lemma rangeMediaItems_room (hasMore : bool) (pre post : list MediaItem) (w : World) :
  0 <= total (stats w) ->
  total (stats w) + Z.of_nat (length pre) <= MaxItems Options ->
  MaxItems Options <= GoInt.max_int ->
  rangeMediaItems Options env hasMore (pre ++ post) w
  = (persistEach Options env pre;; rangeMediaItems Options env hasMore post) w.
Proof.
  revert w. induction pre as [|m pre IH]; intros w H0 Hroom Hmax; [done|].
  simpl length in Hroom.
  change ((m :: pre) ++ post) with (m :: (pre ++ post)).
  rewrite rangeMediaItems_cons, persistEach_cons.
  assert (Hincr : total (stats (with_stats incr_total w)) = total (stats w) + 1).
  { simpl. apply int_incr. unfold GoInt.min_int. lia. }
  rewrite Hincr.
  destruct (Z.ltb_spec (MaxItems Options) (total (stats w) + 1)); [lia|].
  rewrite !run_bind.
  destruct (persistCounted_frame Options env m) as [Kt _].
  specialize (Kt (with_stats incr_total w)). unfold keeps in Kt.
  destruct (persistCounted Options env m (with_stats incr_total w))
    as [[[]| |] w2]; try done.
  simpl in Kt. simpl in Hincr. rewrite Hincr in Kt.
  apply IH; rewrite ?Kt; lia.
Qed.

Lemma pages_room (fuel : nat) (req : SearchMediaItemsRequest) (w : World)
    (items : SearchMediaItemsResponse) :
  listing_service env req = Ok items ->
  NextPageToken items <> EmptyString ->
  0 <= total (stats w) ->
  total (stats w) + Z.of_nat (length (MediaItems items)) <= MaxItems Options ->
  MaxItems Options <= GoInt.max_int ->
  pages Options env (S fuel) true req w
  = (persistEach Options env (MediaItems items);;
     pages Options env fuel true (set_PageToken req (NextPageToken items)))
      (page_start Options req w).
Proof.
  intros Hlist Htoken H0 Hroom Hmax. rewrite pages_step, Hlist.
  rewrite <- (app_nil_r (MediaItems items)) at 1.
  rewrite run_bind, rangeMediaItems_room by done.
  rewrite !run_bind.
  destruct (persistEach Options env (MediaItems items) (page_start Options req w))
    as [[[]| |] w2]; try done.
  simpl. by rewrite (proj2 (String.eqb_neq _ _) Htoken).
Qed.

(** X11: A page that fits under the cap, with a token for more: every item
    of it is examined and persisted, in order, and then the next page
    is asked for, with the same request but for the token just received.
    This is so also when the page brings the count exactly to the cap. *)
Theorem pages_next_page (fuel : nat) (req : SearchMediaItemsRequest) (w : World)
    (items : SearchMediaItemsResponse) :
  listing_service env req = Ok items ->
  NextPageToken items <> EmptyString ->
  0 <= total (stats w) ->
  total (stats w) + Z.of_nat (length (MediaItems items)) <= MaxItems Options ->
  MaxItems Options <= GoInt.max_int ->
  pages Options env (S fuel) true req w
  = (persistEach Options env (MediaItems items);;
     pages Options env fuel true (set_PageToken req (NextPageToken items)))
      (page_start Options req w) /\
  (forall w2,
     persistEach Options env (MediaItems items) (page_start Options req w)
     = (Ret tt, w2) ->
     pages Options env (S fuel) true req w
     = pages Options env fuel true (set_PageToken req (NextPageToken items)) w2 /\
     total (stats w2) = total (stats w) + Z.of_nat (length (MediaItems items)) /\
     searches (history w2) = req :: searches (history w)).
Proof.
  intros Hlist Htoken H0 Hroom Hmax.
  pose proof (pages_room fuel req w items Hlist Htoken H0 Hroom Hmax) as Hrun.
  split; [done|]. intros w2 Heach. split_and!.
  - rewrite Hrun. by erewrite run_bind_ret by exact Heach.
  - rewrite (persistEach_total Options env _ _ _ Heach); [done | done | simpl; lia].
  - pose proof (persistEach_frame Options env (MediaItems items)
                  (page_start Options req w)) as Hq.
    rewrite Heach in Hq. apply quiet_searches in Hq. exact Hq.
Qed.

(** X12: The cap falling on the last item of a page.  When the items of a
    page bring the count exactly to [MaxItems] and the page comes with a
    token, the loop does not stop there: it sleeps and fetches the next
    page, counts the first item of that page without persisting it, and
    only then ends, with [total] at [MaxItems + 1]. *)
Theorem cap_at_page_boundary (fuel : nat) (req : SearchMediaItemsRequest)
    (w w2 : World) (items more : SearchMediaItemsResponse) :
  listing_service env req = Ok items ->
  NextPageToken items <> EmptyString ->
  listing_service env (set_PageToken req (NextPageToken items)) = Ok more ->
  MediaItems more <> [] ->
  0 <= total (stats w) ->
  total (stats w) + Z.of_nat (length (MediaItems items)) = MaxItems Options ->
  MaxItems Options < GoInt.max_int ->
  persistEach Options env (MediaItems items) (page_start Options req w)
  = (Ret tt, w2) ->
  let next := set_PageToken req (NextPageToken items) in
  let w3 := with_stats incr_total (page_start Options next w2) in
  pages Options env (S (S fuel)) true req w = (Ret None, w3) /\
  total (stats w3) = MaxItems Options + 1 /\
  downloaded (stats w3) = downloaded (stats w2) /\
  errors (stats w3) = errors (stats w2) /\
  fs w3 = fs w2 /\
  fetches (history w3) = fetches (history w2) /\
  searches (history w3) = next :: req :: searches (history w).
Proof.
  intros Hlist Htoken Hmore Hne H0 Hfull Hmax Heach next w3.
  assert (Htotal : total (stats w2) = MaxItems Options).
  { rewrite (persistEach_total Options env _ _ _ Heach); simpl; lia. }
  assert (Hsearch : searches (history w2) = req :: searches (history w)).
  { pose proof (persistEach_frame Options env (MediaItems items)
                  (page_start Options req w)) as Hq.
    rewrite Heach in Hq. apply quiet_searches in Hq. exact Hq. }
  split_and!; try done.
  - rewrite (pages_room (S fuel) req w items) by (done || lia).
    erewrite run_bind_ret by exact Heach.
    rewrite (pages_cap Options env fuel next w2 more Hmore); [| lia | done |].
    + by rewrite Htotal, Z.sub_diag.
    + rewrite Htotal, Z.sub_diag. destruct (MediaItems more); [done | simpl; lia].
  - subst w3. simpl. rewrite Htotal. apply int_incr. unfold GoInt.min_int. lia.
  - subst w3. simpl. by rewrite Hsearch.
Qed.

(** X13: A cap of zero or less does not mean no cap, and does not mean no
    work either: the run still sleeps and fetches the first page, counts
    its first item, and ends there with nothing fetched or written and
    [total] at one. *)
Theorem DownloadAll_cap_below_one (fuel : nat) (w : World) (m : MediaItem)
    (rest : list MediaItem) (token : string) :
  MaxItems Options <= 0 ->
  listing_service env (first_request Options)
  = Ok {| MediaItems := m :: rest; NextPageToken := token |} ->
  let w1 := summary_line
              (with_stats incr_total
                 (page_start Options (first_request Options) (reset_stats w))) in
  DownloadAll Options env (S fuel) w = (Ret None, w1) /\
  stats w1 = {| total := 1; errors := 0; totalsize := 0; downloaded := 0 |} /\
  fs w1 = fs w /\
  fetches (history w1) = fetches (history w) /\
  searches (history w1) = first_request Options :: searches (history w).
Proof.
  intros Hcap Hlist w1. split_and!; try done.
  rewrite DownloadAll_run, pages_step, Hlist, run_bind.
  cbn [MediaItems]. rewrite rangeMediaItems_cons.
  change (total (stats (with_stats incr_total
            (page_start Options (first_request Options) (reset_stats w))))) with 1.
  rewrite (proj2 (Z.ltb_lt (MaxItems Options) 1)) by lia.
  cbn [NextPageToken].
  destruct (String.eqb token EmptyString); by rewrite pages_done.
Qed.

(** X14: Whether the run ends is up to the listing service.  One that keeps
    answering with an empty page and a token keeps the loop going: after
    any number of page fetches the run is still not over. *)
Theorem DownloadAll_never_ends (fuel : nat) (w : World) :
  (forall req, exists token,
     token <> EmptyString /\
     listing_service env req = Ok {| MediaItems := []; NextPageToken := token |}) ->
  (DownloadAll Options env fuel w).1 = OutOfFuel /\
  length (searches (history (DownloadAll Options env fuel w).2))
  = (fuel + length (searches (history w)))%nat.
Proof.
  intros Hservice.
  assert (Hpages : forall fuel req v,
            (pages Options env fuel true req v).1 = OutOfFuel /\
            length (searches (history (pages Options env fuel true req v).2))
            = (fuel + length (searches (history v)))%nat).
  { clear fuel. induction fuel as [|fuel IH]; intros req v; [done|].
    destruct (Hservice req) as (token & Htoken & Hlist).
    rewrite pages_step, Hlist, run_bind. simpl.
    rewrite (proj2 (String.eqb_neq _ _) Htoken).
    destruct (IH (set_PageToken req token) (page_start Options req v)) as [-> ->].
    split; [done|]. simpl. lia. }
  rewrite DownloadAll_run.
  destruct (Hpages fuel (first_request Options) (reset_stats w)) as [H1 H2].
  destruct (pages Options env fuel true (first_request Options) (reset_stats w))
    as [[[e|]| |] w']; simpl in *; done.
Qed.

(** X15: The throttle interval is [time.Second * time.Duration(Throttle)], a
    64-bit product: it is the configured number of seconds in
    nanoseconds exactly when that number fits, which it does for every
    throttle from 0 to 9223372036 seconds. *)
Theorem sleepTime_exact :
  (sleepTime Options = 1000000000 * Throttle Options
   <-> GoInt.in_int (1000000000 * Throttle Options)) /\
  (0 <= Throttle Options <= 9223372036 ->
   sleepTime Options = 1000000000 * Throttle Options /\ 0 <= sleepTime Options).
Proof.
  unfold sleepTime, GoInt.mul, time_Second. split.
  - split.
    + intros <-. apply wrap_int_range.
    + apply wrap_int_id.
  - intros Ht. rewrite wrap_int_id; [lia|].
    unfold GoInt.in_int, GoInt.min_int, GoInt.max_int. lia.
Qed.

(** *** The counters *)

Lemma under_cap_accounted (s : StatsT) :
  under_cap Options s -> accounted Options s.
Proof. unfold under_cap, accounted. lia. Qed.

Lemma persistCounted_accounts (m : MediaItem) (w : World) :
  MaxItems Options < GoInt.max_int ->
  0 <= downloaded (stats w) -> 0 <= errors (stats w) ->
  downloaded (stats w) + errors (stats w) < total (stats w) ->
  total (stats w) <= MaxItems Options ->
  under_cap Options (stats (persistCounted Options env m w).2).
Proof.
  intros Hmax Hd He Hsum Ht. unfold persistCounted. rewrite run_bind.
  pose proof (downloadItem_counts Options env m w) as Hc. cbv zeta in Hc.
  destruct (downloadItem_frame Options env m) as (Kt & Ke & _).
  specialize (Kt w). specialize (Ke w). unfold keeps in Kt, Ke.
  assert (Hd1 : GoInt.add (downloaded (stats w)) 1 = downloaded (stats w) + 1).
  { apply int_incr. unfold GoInt.min_int. lia. }
  assert (He1 : GoInt.add (errors (stats w)) 1 = errors (stats w) + 1).
  { apply int_incr. unfold GoInt.min_int. lia. }
  destruct (downloadItem Options env m w) as [[[e|]| |] w2]; simpl in *;
    unfold under_cap; simpl;
    destruct Hc as [-> | (Hr & Hct & Hce & Hcd)]; try done;
    rewrite ?Kt, ?Ke, ?Hcd, ?Hd1, ?He1; lia.
Qed.

Lemma rangeMediaItems_accounts (items : list MediaItem) (w : World) :
  MaxItems Options < GoInt.max_int ->
  under_cap Options (stats w) ->
  let r := rangeMediaItems Options env true items w in
  accounted Options (stats r.2) /\
  (r.1 = Ret true -> under_cap Options (stats r.2)).
Proof.
  intros Hmax. revert w. induction items as [|m rest IH]; intros w Hw r; subst r.
  - simpl. split; [by apply under_cap_accounted | done].
  - rewrite rangeMediaItems_cons.
    destruct Hw as (Hd & He & Hsum & Ht).
    assert (Hincr : total (stats (with_stats incr_total w)) = total (stats w) + 1).
    { simpl. apply int_incr. unfold GoInt.min_int. lia. }
    rewrite Hincr.
    destruct (Z.ltb_spec (MaxItems Options) (total (stats w) + 1)) as [Hcap|Hroom].
    + simpl. split; [|done]. unfold accounted. simpl in *. lia.
    + rewrite run_bind.
      pose proof (persistCounted_accounts m (with_stats incr_total w) Hmax) as Hp.
      simpl in Hp, Hincr. rewrite Hincr in Hp.
      specialize (Hp Hd He ltac:(lia) Hroom).
      destruct (persistCounted Options env m (with_stats incr_total w))
        as [[[]| |] w2]; simpl in Hp.
      * by apply IH.
      * split; [by apply under_cap_accounted | done].
      * split; [by apply under_cap_accounted | done].
Qed.

Lemma pages_accounts (fuel : nat) (hasMore : bool) (req : SearchMediaItemsRequest)
    (w : World) :
  MaxItems Options < GoInt.max_int ->
  (if hasMore then under_cap Options (stats w) else accounted Options (stats w)) ->
  accounted Options (stats (pages Options env fuel hasMore req w).2).
Proof.
  intros Hmax. revert hasMore req w.
  induction fuel as [|fuel IH]; intros [|] req w Hw;
    try (by rewrite pages_done); [by apply under_cap_accounted|].
  rewrite pages_step.
  destruct (listing_service env req) as [items|err];
    [|by apply under_cap_accounted].
  rewrite run_bind.
  destruct (rangeMediaItems_accounts (MediaItems items) (page_start Options req w)
              Hmax Hw) as [Hacc Hunder].
  destruct (rangeMediaItems Options env true (MediaItems items)
              (page_start Options req w)) as [[hm| |] w2]; simpl in *; try done.
  apply IH.
  destruct (String.eqb (NextPageToken items) EmptyString); [done|].
  destruct hm; [by apply Hunder | done].
Qed.

(** X16: However a run goes and wherever it stops (at the cap, at the end of
    the listing, on a listing failure, on a panic), the counters it
    leaves are consistent: no counter is negative, the items downloaded
    and the items failed together are no more than the items examined
    and no more than [MaxItems], and [total] is at most [MaxItems + 1]. *)
Theorem DownloadAll_counters (fuel : nat) (w : World) :
  0 <= MaxItems Options < GoInt.max_int ->
  let s := stats (DownloadAll Options env fuel w).2 in
  0 <= downloaded s /\ 0 <= errors s /\
  downloaded s + errors s <= total s /\
  total s <= MaxItems Options + 1 /\
  downloaded s + errors s <= MaxItems Options.
Proof.
  intros [H0 Hmax] s. subst s. rewrite DownloadAll_run.
  pose proof (pages_accounts fuel true (first_request Options) (reset_stats w) Hmax)
    as Hacc.
  assert (Hstart : under_cap Options (stats (reset_stats w))).
  { unfold under_cap. simpl. lia. }
  specialize (Hacc Hstart).
  by destruct (pages Options env fuel true (first_request Options) (reset_stats w))
    as [[[e|]| |] w'].
Qed.

(** *** A panic in the naming *)

(** X17: An item whose creation time parses and whose identifier has fewer
    than 8 bytes stops the whole run: when the loop comes to it, under
    the cap, [DownloadAll] panics.  The item has been counted in
    [total] and in no other counter, the items after it are not
    examined, and no summary is printed. *)
Theorem DownloadAll_panics_on_short_id (fuel : nat) (w w2 : World)
    (pre rest : list MediaItem) (m : MediaItem) (token : string) (t : Time) :
  listing_service env (first_request Options)
  = Ok {| MediaItems := pre ++ m :: rest; NextPageToken := token |} ->
  time_Parse time_RFC3339 (CreationTime (MediaMetadata m)) = Ok t ->
  GoString.len (Id m) < 8 ->
  Z.of_nat (length pre) < MaxItems Options ->
  MaxItems Options <= GoInt.max_int ->
  persistEach Options env pre
    (page_start Options (first_request Options) (reset_stats w)) = (Ret tt, w2) ->
  DownloadAll Options env (S fuel) w
  = (Panic GoString.out_of_range, with_stats incr_total w2) /\
  total (stats (with_stats incr_total w2)) = Z.of_nat (length pre) + 1.
Proof.
  intros Hlist Ht Hid Hroom Hmax Heach.
  assert (Htotal : total (stats w2) = Z.of_nat (length pre)).
  { rewrite (persistEach_total Options env _ _ _ Heach); simpl; lia. }
  assert (Hincr : total (stats (with_stats incr_total w2)) = Z.of_nat (length pre) + 1).
  { simpl. rewrite Htotal. apply int_incr. unfold GoInt.min_int. lia. }
  split; [|done].
  rewrite DownloadAll_run, pages_step, Hlist, run_bind. cbn [MediaItems].
  rewrite rangeMediaItems_room by (simpl; lia).
  erewrite run_bind_ret by exact Heach.
  rewrite rangeMediaItems_cons, Hincr.
  rewrite (proj2 (Z.ltb_ge _ _)) by lia.
  rewrite run_bind. unfold persistCounted. rewrite run_bind.
  unfold downloadItem. rewrite run_bind.
  unfold getFileName. rewrite run_bind.
  by rewrite (getFileNameByTime_panic Options m t _ Ht Hid).
Qed.

(** *** The requests of a run *)

Lemma pages_requests (fuel : nat) (req : SearchMediaItemsRequest) (w : World) :
  exists later,
    searches (history (pages Options env (S fuel) true req w).2)
    = reverse (req :: later) ++ searches (history w) /\
    follows env req later.
Proof.
  revert req w. induction fuel as [|fuel IH]; intros req w.
  - exists []. split; [|done]. rewrite pages_step.
    destruct (listing_service env req) as [items|err]; [|done].
    rewrite run_bind.
    pose proof (rangeMediaItems_quiet Options env true (MediaItems items)
                  (page_start Options req w)) as Hq.
    apply quiet_searches in Hq.
    destruct (rangeMediaItems Options env true (MediaItems items)
                (page_start Options req w)) as [[hm| |] w2]; simpl in *; try done.
    by destruct (if String.eqb (NextPageToken items) EmptyString then false else hm).
  - rewrite pages_step.
    destruct (listing_service env req) as [items|err] eqn:Hlist;
      [|by exists []].
    rewrite run_bind.
    pose proof (rangeMediaItems_quiet Options env true (MediaItems items)
                  (page_start Options req w)) as Hq.
    apply quiet_searches in Hq.
    destruct (rangeMediaItems Options env true (MediaItems items)
                (page_start Options req w)) as [[hm| |] w2]; simpl in Hq;
      [| by exists [] ..].
    destruct (String.eqb_spec (NextPageToken items) EmptyString) as [Hend|Htoken].
    { exists []. by rewrite pages_done. }
    destruct hm; [| exists []; by rewrite pages_done].
    destruct (IH (set_PageToken req (NextPageToken items)) w2) as (later & Hs & Hf).
    exists (set_PageToken req (NextPageToken items) :: later). split.
    + rewrite Hs, Hq.
      rewrite (reverse_cons (set_PageToken req (NextPageToken items) :: later) req).
      by rewrite <- app_assoc.
    + simpl. by rewrite Hlist.
Qed.

Lemma follows_scope (req : SearchMediaItemsRequest)
    (later : list SearchMediaItemsRequest) :
  follows env req later ->
  Forall (fun r => AlbumId r = AlbumId req /\
                   photoslibrary.PageSize r = photoslibrary.PageSize req) later.
Proof.
  revert req. induction later as [|next later IH]; intros req Hf; [done|].
  simpl in Hf. destruct (listing_service env req) as [items|]; [|done].
  destruct Hf as (_ & -> & Hf). constructor; [done|].
  eapply Forall_impl; [exact (IH _ Hf)|]. by intros r.
Qed.

(** X18: The page fetches of a run, in the order they are made.  The first
    asks for the first page of the configured album with the configured
    page size; each one after it repeats the request before it, but for
    the token, which is the one that request was answered with, and
    which is not empty.  So album and page size are the same in all of
    them, and no page is asked for after a failed or a final one. *)
Theorem DownloadAll_requests (fuel : nat) (w : World) :
  exists reqs,
    searches (history (DownloadAll Options env fuel w).2)
    = reverse reqs ++ searches (history w) /\
    match reqs with
    | [] => fuel = O
    | first :: later =>
        first = first_request Options /\ follows env first later
    end /\
    Forall (fun r => AlbumId r = AlbumID Options /\
                     photoslibrary.PageSize r = PageSize Options) reqs.
Proof.
  rewrite DownloadAll_run. destruct fuel as [|fuel].
  - by exists [].
  - destruct (pages_requests fuel (first_request Options) (reset_stats w))
      as (later & Hs & Hf).
    exists (first_request Options :: later). split; [|split; [done|]].
    + by destruct (pages Options env (S fuel) true (first_request Options)
                     (reset_stats w)) as [[[e|]| |] w'].
    + constructor; [done|]. exact (follows_scope _ _ Hf).
Qed.

End DriverRuns.

(** ** Listing the albums *)



(** ** The further properties at work on the photos of [Scenario] *)

Section MoreRuns.

Import Scenario.

#[local] Existing Instance RefLib.


(** The payload path of the beach cannot be looked at. *)
Lemma createImage_stat_refused_witness :
  content_server env_hidden (payloadUrl beach) = Ok (3, beach_bytes, None) /\
  stat_fault env_hidden beach_png = Some EACCES /\
  (createImage env_hidden beach beach_png beach_on_disk).1
  = Ret (Some (PathError "stat" beach_png EACCES)) /\
  open_bodies (createImage env_hidden beach beach_png beach_on_disk).2
  = ["https://lh3.example/beach=d"].
Proof.
  assert (Hget : content_server env_hidden (payloadUrl beach)
                 = Ok (3, beach_bytes, None)) by reflexivity.
  assert (Hs : stat_fault env_hidden beach_png = Some EACCES) by reflexivity.
  assert (He : EACCES <> ENOENT) by discriminate.
  rewrite (createImage_stat_refused env_hidden beach beach_png beach_on_disk
             EACCES 3 beach_bytes None Hget Hs He).
  split_and!; [exact Hget | exact Hs | reflexivity | reflexivity].
Defined.

(** The beach fetched twice, starting with nothing on disk. *)
Lemma createImage_twice_witness :
  content_server env (payloadUrl beach)
  = Ok (Z.of_nat (length beach_bytes), beach_bytes, None) /\
  fs empty !! beach_png = None /\
  downloaded (stats (createImage env beach beach_png empty).2) = 1 /\
  (createImage env beach beach_png (createImage env beach beach_png empty).2).1
  = Ret None /\
  downloaded (stats (createImage env beach beach_png
                       (createImage env beach beach_png empty).2).2) = 1.
Proof.
  assert (Hget : content_server env (payloadUrl beach)
                 = Ok (Z.of_nat (length beach_bytes), beach_bytes, None))
    by reflexivity.
  assert (Hs : stat_fault env beach_png = None) by reflexivity.
  assert (Ho : open_fault env beach_png = None) by reflexivity.
  assert (Hd : fs empty !! beach_png <> Some Dir) by done.
  destruct (createImage_twice env beach beach_png empty beach_bytes Hget Hs Ho Hd)
    as (_ & _ & Hnew & Hr2 & _ & Hst & _).
  destruct (Hnew eq_refl) as (_ & Hdown & _).
  split_and!; [exact Hget | reflexivity | by rewrite Hdown | exact Hr2 |].
  by rewrite Hst, Hdown.
Defined.


(** The creek is out of reach of the content server. *)
Lemma downloadItem_transport_failure_witness :
  getFileName opts creek empty = (Ret creek_path, empty) /\
  content_server env (payloadUrl creek) = Err (ErrorString "Get: connection refused") /\
  (downloadItem opts env creek empty).1
  = Ret (Some (ErrorString "Get: connection refused")) /\
  errors (stats (persistCounted opts env creek empty).2) = 1 /\
  creations (history (downloadItem opts env creek empty).2) = [] /\
  writes (history (downloadItem opts env creek empty).2)
  = ["backup/2019/April/11_creek003.json"].
Proof.
  assert (Hname : getFileName opts creek empty = (Ret creek_path, empty))
    by reflexivity.
  assert (Hjson : createJSON env creek (jsonName creek_path) empty
                  = (Ret None, (createJSON env creek (jsonName creek_path) empty).2))
    by (vm_compute; reflexivity).
  assert (Hget : content_server env (payloadUrl creek)
                 = Err (ErrorString "Get: connection refused")) by reflexivity.
  destruct (@downloadItem_transport_failure RefLib opts env creek empty empty _
              creek_path _ Hname Hjson Hget) as (Hrun & Hcount & _ & Hcreate & _).
  rewrite Hrun, Hcount.
  split_and!; [exact Hname | exact Hget | reflexivity | reflexivity | | reflexivity].
  simpl. exact Hcreate.
Defined.

(** The ledger: its payload goes where its sidecar is. *)
Lemma downloadItem_json_media_type_witness :
  getFileName opts ledger ledger_on_disk = (Ret ledger_path, ledger_on_disk) /\
  mime_ExtensionsByType (MimeType ledger) = ([".json"], None) /\
  imageName ledger ledger_path = ledger_json /\
  fs ledger_on_disk !! ledger_json = Some (File [x7b; x7d]) /\
  (downloadItem opts env_archive ledger ledger_on_disk).1 = Ret None /\
  fs (downloadItem opts env_archive ledger ledger_on_disk).2 !! ledger_json
  = Some (File ledger_bytes).
Proof.
  assert (Hname : getFileName opts ledger ledger_on_disk
                  = (Ret ledger_path, ledger_on_disk)) by reflexivity.
  assert (Hmime : mime_ExtensionsByType (MimeType ledger) = ([".json"], None))
    by reflexivity.
  destruct (@downloadItem_json_media_type RefLib opts env_archive ledger
              ledger_on_disk ledger_on_disk ledger_path [] None Hname Hmime)
    as (Hsame & Hover).
  assert (Hs : stat_fault env_archive (jsonName ledger_path) = None) by reflexivity.
  assert (Ho : open_fault env_archive (jsonName ledger_path) = None) by reflexivity.
  assert (Hf : fs ledger_on_disk !! jsonName ledger_path = Some (File [x7b; x7d]))
    by reflexivity.
  assert (Hget : content_server env_archive (payloadUrl ledger)
                 = Ok (4, ledger_bytes, None)) by reflexivity.
  assert (Hsize : Z.of_nat (length [x7b; x7d]) <> 4) by (simpl; lia).
  destruct (Hover _ _ _ Hs Ho Hf Hget Hsize) as (Hr & Hfs & _).
  split_and!; [exact Hname | exact Hmime | exact Hsame | exact Hf | exact Hr
              | exact Hfs].
Defined.

(** The beach cut off after its first byte, then fetched in full. *)
Lemma createImage_recovers_partial_witness :
  content_server env_flaky (payloadUrl beach) = Ok (3, [x01], Some cut_off) /\
  content_server env (payloadUrl beach) = Ok (3, beach_bytes, None) /\
  (createImage env_flaky beach beach_png empty).1 = Ret (Some cut_off) /\
  fs (createImage env_flaky beach beach_png empty).2 !! beach_png
  = Some (File [x01]) /\
  fs (createImage env beach beach_png
        (createImage env_flaky beach beach_png empty).2).2 !! beach_png
  = Some (File beach_bytes) /\
  downloaded (stats (createImage env beach beach_png
                       (createImage env_flaky beach beach_png empty).2).2) = 1.
Proof.
  assert (Hget : content_server env_flaky (payloadUrl beach)
                 = Ok (Z.of_nat (length beach_bytes), [x01], Some cut_off))
    by reflexivity.
  assert (Hget' : content_server env (payloadUrl beach)
                  = Ok (Z.of_nat (length beach_bytes), beach_bytes, None))
    by reflexivity.
  assert (Hlen : length [x01] <> length beach_bytes) by (simpl; lia).
  destruct (createImage_recovers_partial env_flaky env beach beach_png empty
              [x01] beach_bytes cut_off Hget Hget' Hlen
              eq_refl eq_refl eq_refl eq_refl eq_refl)
    as (H1 & H2 & _ & _ & H5 & H6 & _).
  split_and!; [exact Hget | exact Hget' | exact H1 | | |].
  - by rewrite H2, lookup_insert_eq.
  - by rewrite H5, lookup_insert_eq.
  - by rewrite H6.
Defined.

(** Two pages under a roomy cap. *)
Lemma pages_next_page_witness :
  listing_service (env_with two_pages) (first_request roomy)
  = Ok {| MediaItems := [beach; hills]; NextPageToken := "p2" |} /\
  searches (history (DownloadAll roomy (env_with two_pages) 2 empty).2)
  = [set_PageToken (first_request roomy) "p2"; first_request roomy] /\
  stats (DownloadAll roomy (env_with two_pages) 2 empty).2
  = {| total := 3; errors := 1; totalsize := 5; downloaded := 2 |}.
Proof.
  assert (Hlist : listing_service (env_with two_pages) (first_request roomy)
                  = Ok {| MediaItems := [beach; hills]; NextPageToken := "p2" |})
    by reflexivity.
  assert (Htoken : NextPageToken {| MediaItems := [beach; hills];
                                    NextPageToken := "p2" |} <> EmptyString)
    by discriminate.
  assert (H0 : 0 <= total (stats (reset_stats empty))) by (simpl; lia).
  assert (Hroom : total (stats (reset_stats empty))
                  + Z.of_nat (length (MediaItems {| MediaItems := [beach; hills];
                                                   NextPageToken := "p2" |}))
                  <= MaxItems roomy) by (simpl; lia).
  assert (Hmax : MaxItems roomy <= GoInt.max_int) by (by vm_compute).
  destruct (@pages_next_page RefLib roomy (env_with two_pages) 1
              (first_request roomy) (reset_stats empty) _ Hlist Htoken H0 Hroom Hmax)
    as (Hrun & _).
  split; [exact Hlist|].
  rewrite DownloadAll_run, Hrun. split; reflexivity.
Defined.

(** Two photos under a cap of two, and one more page. *)
Lemma cap_at_page_boundary_witness :
  MaxItems opts = 2 /\
  listing_service (env_with two_pages) (first_request opts)
  = Ok {| MediaItems := [beach; hills]; NextPageToken := "p2" |} /\
  (pages opts (env_with two_pages) 2 true (first_request opts)
     (reset_stats empty)).1 = Ret None /\
  searches (history (pages opts (env_with two_pages) 2 true (first_request opts)
                       (reset_stats empty)).2)
  = [set_PageToken (first_request opts) "p2"; first_request opts] /\
  stats (pages opts (env_with two_pages) 2 true (first_request opts)
           (reset_stats empty)).2
  = {| total := 3; errors := 0; totalsize := 5; downloaded := 2 |}.
Proof.
  assert (Hlist : listing_service (env_with two_pages) (first_request opts)
                  = Ok {| MediaItems := [beach; hills]; NextPageToken := "p2" |})
    by reflexivity.
  assert (Htoken : NextPageToken {| MediaItems := [beach; hills];
                                    NextPageToken := "p2" |} <> EmptyString)
    by discriminate.
  assert (Hmore : listing_service (env_with two_pages)
                    (set_PageToken (first_request opts) "p2")
                  = Ok {| MediaItems := [creek]; NextPageToken := EmptyString |})
    by reflexivity.
  assert (Hne : MediaItems {| MediaItems := [creek];
                              NextPageToken := EmptyString |} <> []) by discriminate.
  assert (H0 : 0 <= total (stats (reset_stats empty))) by (simpl; lia).
  assert (Hfull : total (stats (reset_stats empty))
                  + Z.of_nat (length (MediaItems {| MediaItems := [beach; hills];
                                                   NextPageToken := "p2" |}))
                  = MaxItems opts) by reflexivity.
  assert (Hmax : MaxItems opts < GoInt.max_int) by (by vm_compute).
  assert (Heach : persistEach opts (env_with two_pages) [beach; hills]
                    (page_start opts (first_request opts) (reset_stats empty))
                  = (Ret tt,
                     (persistEach opts (env_with two_pages) [beach; hills]
                        (page_start opts (first_request opts)
                           (reset_stats empty))).2))
    by (vm_compute; reflexivity).
  destruct (@cap_at_page_boundary RefLib opts (env_with two_pages) 0
              (first_request opts) (reset_stats empty) _ _ _
              Hlist Htoken Hmore Hne H0 Hfull Hmax Heach)
    as (Hrun & _ & _ & _ & _ & _ & Hsearch).
  rewrite Hrun.
  split_and!; [reflexivity | exact Hlist | reflexivity | exact Hsearch | reflexivity].
Defined.

(** A cap of zero and the first page of three photos. *)
Lemma DownloadAll_cap_below_one_witness :
  MaxItems closed <= 0 /\
  listing_service env (first_request closed)
  = Ok {| MediaItems := beach :: [hills; creek]; NextPageToken := "next" |} /\
  (DownloadAll closed env 1 empty).1 = Ret None /\
  stats (DownloadAll closed env 1 empty).2
  = {| total := 1; errors := 0; totalsize := 0; downloaded := 0 |} /\
  fs (DownloadAll closed env 1 empty).2 = ∅ /\
  searches (history (DownloadAll closed env 1 empty).2) = [first_request closed].
Proof.
  assert (Hcap : MaxItems closed <= 0) by (simpl; lia).
  assert (Hlist : listing_service env (first_request closed)
                  = Ok {| MediaItems := beach :: [hills; creek];
                          NextPageToken := "next" |}) by reflexivity.
  destruct (@DownloadAll_cap_below_one RefLib closed env 0 empty beach
              [hills; creek] "next" Hcap Hlist) as (Hrun & Hst & Hfs & _ & Hs).
  rewrite Hrun.
  split_and!; [exact Hcap | exact Hlist | reflexivity | exact Hst | exact Hfs
              | exact Hs].
Defined.

(** Three page fetches of the endless listing, and no end. *)
Lemma DownloadAll_never_ends_witness :
  (forall req, exists token,
     token <> EmptyString /\
     listing_service (env_with endless) req
     = Ok {| MediaItems := []; NextPageToken := token |}) /\
  (DownloadAll opts (env_with endless) 3 empty).1 = OutOfFuel /\
  length (searches (history (DownloadAll opts (env_with endless) 3 empty).2))
  = 3%nat.
Proof.
  assert (Hservice : forall req, exists token,
            token <> EmptyString /\
            listing_service (env_with endless) req
            = Ok {| MediaItems := []; NextPageToken := token |}).
  { intros req. by exists "more". }
  destruct (@DownloadAll_never_ends RefLib opts (env_with endless) 3 empty Hservice)
    as (Hr & Hn).
  split_and!; [exact Hservice | exact Hr | exact Hn].
Defined.

(** A throttle of five seconds. *)
Lemma sleepTime_exact_witness :
  0 <= Throttle opts <= 9223372036 /\ sleepTime opts = 5000000000.
Proof.
  assert (Ht : 0 <= Throttle opts <= 9223372036) by (simpl; lia).
  destruct (sleepTime_exact opts) as (_ & Hexact).
  destruct (Hexact Ht) as (Hs & _).
  split; [exact Ht | exact Hs].
Defined.

(** The counters of the run over the three photos under a cap of two. *)
Lemma DownloadAll_counters_witness :
  0 <= MaxItems opts < GoInt.max_int /\
  stats (DownloadAll opts env 1 empty).2
  = {| total := 3; errors := 0; totalsize := 5; downloaded := 2 |} /\
  downloaded (stats (DownloadAll opts env 1 empty).2)
  + errors (stats (DownloadAll opts env 1 empty).2) <= MaxItems opts.
Proof.
  assert (Hcap : 0 <= MaxItems opts < GoInt.max_int) by (by vm_compute).
  destruct (@DownloadAll_counters RefLib opts env 1 empty Hcap)
    as (_ & _ & _ & _ & Hsum).
  split; [exact Hcap | split; [reflexivity | exact Hsum]].
Defined.

(** The short identifier in the middle of a page. *)
Lemma DownloadAll_panics_on_short_id_witness :
  listing_service (env_with with_short) (first_request roomy)
  = Ok {| MediaItems := [beach] ++ short :: [hills];
          NextPageToken := EmptyString |} /\
  time_Parse time_RFC3339 (CreationTime (MediaMetadata short)) = Ok march_2 /\
  GoString.len (Id short) < 8 /\
  (DownloadAll roomy (env_with with_short) 1 empty).1
  = Panic GoString.out_of_range /\
  stats (DownloadAll roomy (env_with with_short) 1 empty).2
  = {| total := 2; errors := 0; totalsize := 3; downloaded := 1 |} /\
  fetches (history (DownloadAll roomy (env_with with_short) 1 empty).2)
  = ["https://lh3.example/beach=d"] /\
  existsb is_summary (history (DownloadAll roomy (env_with with_short) 1 empty).2)
  = false.
Proof.
  assert (Hlist : listing_service (env_with with_short) (first_request roomy)
                  = Ok {| MediaItems := [beach] ++ short :: [hills];
                          NextPageToken := EmptyString |}) by reflexivity.
  assert (Ht : time_Parse time_RFC3339 (CreationTime (MediaMetadata short))
               = Ok march_2) by reflexivity.
  assert (Hid : GoString.len (Id short) < 8) by (by vm_compute).
  assert (Hroom : Z.of_nat (length [beach]) < MaxItems roomy) by (simpl; lia).
  assert (Hmax : MaxItems roomy <= GoInt.max_int) by (by vm_compute).
  assert (Heach : persistEach roomy (env_with with_short) [beach]
                    (page_start roomy (first_request roomy) (reset_stats empty))
                  = (Ret tt,
                     (persistEach roomy (env_with with_short) [beach]
                        (page_start roomy (first_request roomy)
                           (reset_stats empty))).2))
    by (vm_compute; reflexivity).
  destruct (@DownloadAll_panics_on_short_id RefLib roomy (env_with with_short) 0
              empty _ [beach] [hills] short EmptyString march_2
              Hlist Ht Hid Hroom Hmax Heach) as (Hrun & _).
  rewrite Hrun.
  split_and!; [exact Hlist | exact Ht | exact Hid | reflexivity | reflexivity
              | reflexivity | reflexivity].
Defined.

(** A video is asked for with [=dv], a photo with [=d]. *)
Lemma createImage_one_request_witness :
  fetches (history (createImage env film "backup/film" empty).2)
  = ["https://lh3.example/film=dv"] /\
  fetches (history (createImage env beach beach_png empty).2)
  = ["https://lh3.example/beach=d"].
Proof.
  destruct (createImage_one_request env film "backup/film" empty) as (Hf & _).
  destruct (createImage_one_request env beach beach_png empty) as (Hb & _).
  rewrite Hf, Hb. split; reflexivity.
Defined.

(** The requests of the run over the two pages. *)
Lemma DownloadAll_requests_witness :
  searches (history (DownloadAll roomy (env_with two_pages) 5 empty).2)
  = [set_PageToken (first_request roomy) "p2"; first_request roomy] /\
  exists reqs,
    searches (history (DownloadAll roomy (env_with two_pages) 5 empty).2)
    = reverse reqs ++ searches (history empty) /\
    Forall (fun r => AlbumId r = AlbumID roomy /\
                     photoslibrary.PageSize r = PageSize roomy) reqs.
Proof.
  split; [reflexivity|].
  destruct (@DownloadAll_requests RefLib roomy (env_with two_pages) 5 empty)
    as (reqs & Hs & _ & Hscope).
  exists reqs. split; [exact Hs | exact Hscope].
Defined.


End MoreRuns.
